(** * Album service (main.go): a shallow embedding and its properties

    The service is a gin HTTP server over one MySQL table.  The handlers of
    main.go ([createAlbum], [getAlbum], the health closure, [initDB] and
    [main]) are embedded as functions over an explicit database state; the
    library calls they make (strconv, net/http's form parsing,
    mime/multipart, database/sql, encoding/json) are embedded next to them,
    each in a module named after its Go package. *)

From Stdlib Require Import ZArith String Ascii List Lia Bool.
From Stdlib.Strings Require Import Byte.
From stdpp Require Import base option gmap strings list fin_maps.

#[local] Set Warnings "-register-all".

Local Open Scope string_scope.
Local Open Scope Z_scope.

(** ** Results of fallible calls: Go's [(value, err)] pairs *)

Inductive result (A E : Type) : Type :=
| Ok (a : A)
| Err (e : E).

Arguments Ok {A E} a.
Arguments Err {A E} e.

(** ** strconv.Atoi

    Go's [int] is 64 bits wide on the platforms the service runs on.  [Atoi]
    is [ParseInt(s, 10, 0)]: an optional sign, then at least one decimal
    digit and nothing else; a magnitude that does not fit is a range error.
    (The short-string fast path of [Atoi] computes the same result.) *)

Module strconv.

Inductive NumError : Type := ErrSyntax | ErrRange.

Definition intSize : Z := 64.
Definition maxUint64 : Z := 2 ^ 64 - 1.
Definition MaxInt : Z := 2 ^ (intSize - 1) - 1.
Definition MinInt : Z := - 2 ^ (intSize - 1).

Definition byte_of (c : ascii) : Z := Z.of_N (N_of_ascii c).

(** The loop of [ParseUint] for base 10: [d := c - '0'] is computed on bytes,
    so that every byte outside ['0'..'9'] gives [d > 9]. *)
Fixpoint parseUint_loop (s : string) (n : Z) : result Z NumError :=
  match s with
  | EmptyString => Ok n
  | String c s' =>
      let d := (byte_of c - 48) mod 256 in
      if 9 <? d then Err ErrSyntax
      else if maxUint64 / 10 + 1 <=? n then Err ErrRange
      else
        let n1 := n * 10 + d in
        if maxUint64 <? n1 then Err ErrRange else parseUint_loop s' n1
  end.

Definition ParseUint (s : string) : result Z NumError :=
  match s with
  | EmptyString => Err ErrSyntax
  | _ => parseUint_loop s 0
  end.

Definition ParseInt (s : string) : result Z NumError :=
  match s with
  | EmptyString => Err ErrSyntax
  | String c s' =>
      let neg := Ascii.eqb c "-" in
      let digits := if Ascii.eqb c "+" || neg then s' else s in
      match ParseUint digits with
      | Err e => Err e
      | Ok un =>
          let cutoff := 2 ^ (intSize - 1) in
          if negb neg && (cutoff <=? un) then Err ErrRange
          else if neg && (cutoff <? un) then Err ErrRange
          else Ok (if neg then - un else un)
      end
  end.

Definition Atoi (s : string) : result Z NumError := ParseInt s.

End strconv.

(** ** The Album entity (main.go, [type Album]) *)

Record Album : Type := mkAlbum {
  ID : Z;
  Artist : string;
  Title : string;
  Year : Z;
  Image : list byte
}.

(** ** encoding/json, as far as the handlers use it

    A JSON document is kept as a tree.  A [[]byte] is encoded by Go as a
    base64 string; [Base64 b] stands for the string that encodes [b]. *)

Module json.

Inductive value : Type :=
| Num (n : Z)
| Str (s : string)
| Base64 (b : list byte)
| Obj (fields : list (string * value)).

Definition is_nil {A} (l : list A) : bool :=
  match l with [] => true | _ => false end.

(** The struct tags of [Album]: [id] and [image] carry [omitempty], so a
    zero id and an image of length zero are left out of the object. *)
Definition Marshal_Album (a : Album) : value :=
  Obj ((if ID a =? 0 then [] else [("id", Num (ID a))])
       ++ [("artist", Str (Artist a)); ("title", Str (Title a)); ("year", Num (Year a))]
       ++ (if is_nil (Image a) then [] else [("image", Base64 (Image a))])).

Fixpoint assoc (k : string) (fs : list (string * value)) : option value :=
  match fs with
  | [] => None
  | (k', v) :: fs' => if String.eqb k k' then Some v else assoc k fs'
  end.

Definition field (k : string) (v : value) : option value :=
  match v with
  | Obj fs => assoc k fs
  | _ => None
  end.

(** What a client gets from [json.Unmarshal(body, &album)]: an absent field
    keeps the zero value of its type, a field of the wrong kind is an error. *)
Definition Unmarshal_Album (v : value) : option Album :=
  match v with
  | Obj fs =>
      id ← match assoc "id" fs with
           | None => Some 0 | Some (Num n) => Some n | Some _ => None end;
      artist ← match assoc "artist" fs with
               | None => Some "" | Some (Str s) => Some s | Some _ => None end;
      title ← match assoc "title" fs with
              | None => Some "" | Some (Str s) => Some s | Some _ => None end;
      year ← match assoc "year" fs with
             | None => Some 0 | Some (Num n) => Some n | Some _ => None end;
      image ← match assoc "image" fs with
              | None => Some [] | Some (Base64 b) => Some b | Some _ => None end;
      Some (mkAlbum id artist title year image)
  | _ => None
  end.

End json.

(** ** The errors the library calls of main.go can return *)

Inductive error : Type :=
| ErrNotMultipart      (* http: the body is not a readable multipart/form-data body *)
| ErrMessageTooLarge   (* multipart: the parts kept in memory exceed the budget *)
| ErrMissingFile       (* http: no file under that form key *)
| ErrIO                (* os: a spooled temporary file cannot be opened or read *)
| ErrNoRows            (* sql: the query selected no row *)
| ErrDriver.           (* sql: the statement failed (connection, constraint, decoding) *)

(** What the surroundings of one request do: the SQL mode of the server and
    which of the fallible system calls fail while the request is served. *)
Record Env : Type := mkEnv {
  sql_strict : bool;            (* MySQL runs in strict SQL mode (its default) *)
  formfile_open_fault : bool;   (* the open that FormFile performs fails *)
  open_fault : bool;            (* file.Open() fails *)
  read_fault : bool;            (* io.ReadAll fails *)
  exec_fault : bool;            (* db.Exec fails before the statement runs *)
  last_insert_id_fault : bool;  (* result.LastInsertId fails *)
  query_fault : bool            (* db.QueryRow(...).Scan fails other than by ErrNoRows *)
}.

(** ** mime/multipart: [Reader.ReadForm], [FileHeader.Open] *)

Module multipart.

(** One part of the body.  A part with an empty file name is a form field
    whose value is its content; any other part is an uploaded file. *)
Record Part : Type := mkPart {
  FormName : string;
  FileName : string;
  Content : list byte
}.

Record FileHeader : Type := mkFileHeader {
  Filename : string;
  Size : Z;
  content : list byte;
  tmpfile : bool     (* the content was spooled to a temporary file *)
}.

Record Form : Type := mkForm {
  Value : gmap string (list string);
  File : gmap string (list FileHeader)
}.

(** An opened file ([multipart.File]). *)
Record OpenFile : Type := mkFile {
  data : list byte;
  on_disk : bool
}.

Definition len {A} (l : list A) : Z := Z.of_nat (length l).

(** [m[k] = append(m[k], x)] *)
Definition append_at {A} (k : string) (x : A) (m : gmap string (list A))
  : gmap string (list A) :=
  <[k := (default [] (m !! k) ++ [x])%list]> m.

(** [readForm]: file parts are kept in memory while they fit in what is left
    of [maxMemory] and are spooled to a temporary file otherwise; the form
    fields may use 10 MiB more than what is left of that budget, and the
    whole form is refused with [ErrMessageTooLarge] beyond that.  (The small
    per-part bookkeeping charge of recent Go releases is not modelled.) *)
Fixpoint readForm (parts : list Part) (maxMemory maxValueBytes : Z) (form : Form)
  : result Form error :=
  match parts with
  | [] => Ok form
  | p :: ps =>
      if String.eqb (FormName p) "" then readForm ps maxMemory maxValueBytes form
      else if String.eqb (FileName p) "" then
        let n := len (Content p) in
        if maxValueBytes - n <? 0 then Err ErrMessageTooLarge
        else readForm ps maxMemory (maxValueBytes - n)
               (mkForm (append_at (FormName p) (string_of_list_byte (Content p)) (Value form))
                       (File form))
      else
        let n := len (Content p) in
        if maxMemory <? n then
          readForm ps maxMemory maxValueBytes
            (mkForm (Value form)
                    (append_at (FormName p)
                       (mkFileHeader (FileName p) n (Content p) true) (File form)))
        else
          readForm ps (maxMemory - n) (maxValueBytes - n)
            (mkForm (Value form)
                    (append_at (FormName p)
                       (mkFileHeader (FileName p) n (Content p) false) (File form)))
  end.

Definition ReadForm (maxMemory : Z) (parts : list Part) : result Form error :=
  readForm parts maxMemory (maxMemory + Z.shiftl 10 20) (mkForm ∅ ∅).

(** [fh.Open()]: content held in memory always opens; a spooled file is
    opened from disk, which can fail. *)
Definition Open (fault : bool) (fh : FileHeader) : result OpenFile error :=
  if tmpfile fh && fault then Err ErrIO
  else Ok (mkFile (content fh) (tmpfile fh)).

End multipart.

(** ** io.ReadAll on an opened multipart file *)

Module io.

Definition ReadAll (env : Env) (f : multipart.OpenFile) : result (list byte) error :=
  if multipart.on_disk f && read_fault env then Err ErrIO
  else Ok (multipart.data f).

End io.

(** ** net/http: the request and its forms *)

Module http.

Definition StatusOK : Z := 200.
Definition StatusCreated : Z := 201.
Definition StatusBadRequest : Z := 400.
Definition StatusNotFound : Z := 404.
Definition StatusInternalServerError : Z := 500.

(** A request as the handlers see it: method, path, the parameters of the
    URL's query string, and the body, which is either a sequence of
    multipart parts or ([None]) not a readable multipart/form-data body. *)
Record Request : Type := mkRequest {
  Method : string;
  Path : string;
  Query : gmap string (list string);
  Body : option (list multipart.Part)
}.

(** The request after a successful [ParseMultipartForm]: [Form] holds the
    query parameters followed by the fields of the body. *)
Record Parsed : Type := mkParsed {
  Form : gmap string (list string);
  MultipartForm : multipart.Form
}.

Definition ParseMultipartForm (maxMemory : Z) (r : Request) : result Parsed error :=
  match Body r with
  | None => Err ErrNotMultipart
  | Some parts =>
      match multipart.ReadForm maxMemory parts with
      | Err e => Err e
      | Ok f =>
          Ok (mkParsed
                (union_with (fun q v => Some (q ++ v)%list) (Query r) (multipart.Value f))
                f)
      end
  end.

(** [r.FormValue(key)]: the first value under [key], or the empty string. *)
Definition FormValue (p : Parsed) (key : string) : string :=
  match Form p !! key with
  | Some (v :: _) => v
  | _ => ""
  end.

(** [r.FormFile(key)]: the first file under [key], which it also opens. *)
Definition FormFile (fault : bool) (p : Parsed) (key : string)
  : result multipart.FileHeader error :=
  match multipart.File (MultipartForm p) !! key with
  | Some (fh :: _) =>
      match multipart.Open fault fh with
      | Ok _ => Ok fh
      | Err e => Err e
      end
  | _ => Err ErrMissingFile
  end.

End http.

(** ** database/sql over the Albums table

    The table is the one [initDB] creates:
    [id INT AUTO_INCREMENT PRIMARY KEY, artist VARCHAR(255) NOT NULL,
     year INT NOT NULL, title VARCHAR(255) NOT NULL, image MEDIUMBLOB NOT NULL].
    A state of the database is the rows by primary key and the counter the
    next id comes from. *)

Module sql.

Record Row : Type := mkRow {
  artist : string;
  title : string;
  year : Z;
  image : list byte
}.

Record DB : Type := mkDB {
  Albums : gmap Z Row;
  AUTO_INCREMENT : Z
}.

(** The table right after [CREATE TABLE]. *)
Definition empty : DB := mkDB ∅ 1.

Definition INT_MAX : Z := 2 ^ 31 - 1.
Definition INT_MIN : Z := - 2 ^ 31.
Definition VARCHAR_255 : Z := 255.
Definition MEDIUMBLOB_MAX : Z := 2 ^ 24 - 1.

Definition strlen (s : string) : Z := Z.of_nat (String.length s).

(** The values a row can hold, column by column. *)
Definition fits (r : Row) : bool :=
  (strlen (artist r) <=? VARCHAR_255)
  && (strlen (title r) <=? VARCHAR_255)
  && (INT_MIN <=? year r) && (year r <=? INT_MAX)
  && (multipart.len (image r) <=? MEDIUMBLOB_MAX).

Fixpoint take_string (n : Z) (s : string) : string :=
  match s with
  | EmptyString => EmptyString
  | String c s' => if n <=? 0 then EmptyString else String c (take_string (n - 1) s')
  end.

Fixpoint take_bytes (n : Z) (b : list byte) : list byte :=
  match b with
  | [] => []
  | x :: b' => if n <=? 0 then [] else x :: take_bytes (n - 1) b'
  end.

(** Outside strict mode MySQL stores what fits: strings and blobs cut to the
    column's length, numbers clipped to the column's range. *)
Definition truncate (r : Row) : Row :=
  mkRow (take_string VARCHAR_255 (artist r))
        (take_string VARCHAR_255 (title r))
        (Z.max INT_MIN (Z.min INT_MAX (year r)))
        (take_bytes MEDIUMBLOB_MAX (image r)).

(** What the server stores for the values of an INSERT, if anything: in
    strict mode a value that does not fit its column fails the statement. *)
Definition store (strict : bool) (r : Row) : option Row :=
  if fits r then Some r
  else if strict then None
  else Some (truncate r).

(** [db.Exec("INSERT INTO Albums (artist, title, year, image) VALUES (?, ?, ?, ?)", ...)]:
    on success the new row gets the next id and the result carries that id;
    a failed statement leaves the table as it was. *)
Definition Exec_insert (env : Env) (db : DB)
    (artist title : string) (year : Z) (image : list byte) : result Z error * DB :=
  if exec_fault env then (Err ErrDriver, db)
  else if INT_MAX <? AUTO_INCREMENT db then (Err ErrDriver, db)
  else
    match store (sql_strict env) (mkRow artist title year image) with
    | None => (Err ErrDriver, db)
    | Some r =>
        (Ok (AUTO_INCREMENT db),
         mkDB (<[AUTO_INCREMENT db := r]> (Albums db)) (AUTO_INCREMENT db + 1))
    end.

Definition LastInsertId (env : Env) (res : Z) : result Z error :=
  if last_insert_id_fault env then Err ErrDriver else Ok res.

(** [db.QueryRow("SELECT id, artist, title, year, image FROM Albums WHERE id = ?", id).Scan(...)] *)
Definition QueryRow_Scan (env : Env) (db : DB) (id : Z) : result Album error :=
  if query_fault env then Err ErrDriver
  else
    match Albums db !! id with
    | None => Err ErrNoRows
    | Some r => Ok (mkAlbum id (artist r) (title r) (year r) (image r))
    end.

End sql.

(** ** gin: the context of a request and its JSON responses *)

Module gin.

Record Response : Type := mkResponse {
  Status : Z;
  Body : json.value
}.

(** [gin.H{key: v}]; every map main.go builds has a single key. *)
Definition H (key : string) (v : json.value) : json.value := json.Obj [(key, v)].

(** [c.JSON(code, obj)] *)
Definition JSON (code : Z) (obj : json.value) : Response := mkResponse code obj.

Record Context : Type := mkContext {
  Request : http.Request;
  Params : list (string * string)
}.

(** [c.Param(key)]: the path parameter, or the empty string. *)
Fixpoint lookup_param (ps : list (string * string)) (key : string) : string :=
  match ps with
  | [] => ""
  | (k, v) :: ps' => if String.eqb k key then v else lookup_param ps' key
  end.

Definition Param (c : Context) (key : string) : string := lookup_param (Params c) key.

(** [c.FormFile(name)] on a request whose form is parsed already. *)
Definition FormFile (env : Env) (p : http.Parsed) (name : string)
  : result multipart.FileHeader error :=
  http.FormFile (formfile_open_fault env) p name.

End gin.

(** ** The handlers of main.go *)

(** [x, err := e; if err != nil { r; return }] *)
Notation "'try' x ':=' e 'orelse' r 'in' k" :=
  (match e with Ok x => k | Err _ => r end)
  (at level 10, x name, e at level 100, r at level 100, k at level 200,
   format "'[v' 'try'  x  ':='  e  'orelse'  r  'in' '/' k ']'").

Definition createAlbum (env : Env) (c : gin.Context) (db : sql.DB)
  : gin.Response * sql.DB :=
  try form := http.ParseMultipartForm (Z.shiftl 10 20) (gin.Request c)
    orelse (gin.JSON http.StatusBadRequest
              (gin.H "error" (json.Str "Invalid form data")), db) in
  let artist := http.FormValue form "artist" in
  let title := http.FormValue form "title" in
  let yearStr := http.FormValue form "year" in
  if String.eqb artist "" || String.eqb title "" || String.eqb yearStr "" then
    (gin.JSON http.StatusBadRequest
       (gin.H "error" (json.Str "Artist, title, and year are required")), db)
  else
    let bad_year :=
      (gin.JSON http.StatusBadRequest
         (gin.H "error" (json.Str "Year must be a positive integer")), db) in
    try year := strconv.Atoi yearStr orelse bad_year in
    if year <=? 0 then bad_year
    else
      try file := gin.FormFile env form "image"
        orelse (gin.JSON http.StatusBadRequest
                  (gin.H "error" (json.Str "Image is required")), db) in
      try openedFile := multipart.Open (open_fault env) file
        orelse (gin.JSON http.StatusInternalServerError
                  (gin.H "error" (json.Str "Failed to process image file")), db) in
      try imageData := io.ReadAll env openedFile
        orelse (gin.JSON http.StatusInternalServerError
                  (gin.H "error" (json.Str "Failed to read image file")), db) in
      let '(result, db') := sql.Exec_insert env db artist title year imageData in
      try result := result
        orelse (gin.JSON http.StatusInternalServerError
                  (gin.H "error" (json.Str "Failed to insert album")), db') in
      try albumID := sql.LastInsertId env result
        orelse (gin.JSON http.StatusInternalServerError
                  (gin.H "error" (json.Str "Failed to retrieve album ID")), db') in
      (gin.JSON http.StatusCreated (gin.H "AlbumID" (json.Num albumID)), db').

Definition getAlbum (env : Env) (c : gin.Context) (db : sql.DB)
  : gin.Response * sql.DB :=
  try albumID := strconv.Atoi (gin.Param c "id")
    orelse (gin.JSON http.StatusBadRequest
              (gin.H "error" (json.Str "Invalid album ID")), db) in
  match sql.QueryRow_Scan env db albumID with
  | Err ErrNoRows =>
      (gin.JSON http.StatusNotFound (gin.H "error" (json.Str "Album not found")), db)
  | Err _ =>
      (gin.JSON http.StatusInternalServerError
         (gin.H "error" (json.Str "Database error")), db)
  | Ok album => (gin.JSON http.StatusOK (json.Marshal_Album album), db)
  end.

(** The closure [main] registers for [GET /health]. *)
Definition health (c : gin.Context) : gin.Response :=
  gin.JSON 200 (gin.H "status" (json.Str "ok")).

(** ** The routes [main] registers

    [GET /health], [POST /albums] and [GET /albums/:id]; the parameter [:id]
    is one non-empty path segment.  [serve] is [None] for a request none of
    the three routes takes (gin answers those itself). *)

Definition path_param (prefix path : string) : option string :=
  if String.prefix prefix path then
    let seg := String.substring (String.length prefix)
                 (String.length path - String.length prefix) path in
    match seg, String.index 0 "/" seg with
    | EmptyString, _ => None
    | _, Some _ => None
    | _, None => Some seg
    end
  else None.

Definition serve (env : Env) (r : http.Request) (db : sql.DB)
  : option (gin.Response * sql.DB) :=
  if String.eqb (http.Method r) "GET" && String.eqb (http.Path r) "/health" then
    Some (health (gin.mkContext r []), db)
  else if String.eqb (http.Method r) "POST" && String.eqb (http.Path r) "/albums" then
    Some (createAlbum env (gin.mkContext r []) db)
  else if String.eqb (http.Method r) "GET" then
    match path_param "/albums/" (http.Path r) with
    | Some id => Some (getAlbum env (gin.mkContext r [("id", id)]) db)
    | None => None
    end
  else None.

(** ** Startup: [initDB] and [main] *)

Module os.

(** [os.Getenv]: the value of the variable, empty when it is not set. *)
Definition Getenv (environ : gmap string string) (key : string) : string :=
  default "" (environ !! key).

End os.

(** What the database server does while the process starts: the error, if
    any, of [sql.Open], of [db.Ping] and of the [CREATE TABLE IF NOT EXISTS]
    statement, and the Albums table it holds already, if it holds one. *)
Record Startup : Type := mkStartup {
  open_err : option string;
  ping_err : option string;
  create_table_err : option string;
  existing_table : option sql.DB
}.

(** [initDB]: [Err msg] is [log.Fatal(msg)], which ends the process.  (The
    settings of the connection pool change nothing a request can see.) *)
Definition initDB (environ : gmap string string) (w : Startup) : result sql.DB string :=
  let dsn := os.Getenv environ "DB_DSN" in
  if String.eqb dsn "" then Err "DB_DSN environment variable not set"
  else
    match open_err w with
    | Some e => Err ("Failed to open DB: " ++ e)
    | None =>
        match ping_err w with
        | Some e => Err ("Failed to connect to DB: " ++ e)
        | None =>
            match create_table_err w with
            | Some e => Err ("Failed to create table: " ++ e)
            | None => Ok (default sql.empty (existing_table w))
            end
        end
    end.

(** How [main] goes on after its startup code: it has left through
    [log.Fatal] (exit status 1) without ever listening, or it serves on an
    address. *)
Inductive Process : Type :=
| Exit (status : Z) (log : string)
| Run (addr : string) (db : sql.DB).

Definition main (environ : gmap string string) (w : Startup) : Process :=
  match initDB environ w with
  | Err msg => Exit 1 msg
  | Ok db =>
      let port := os.Getenv environ "PORT" in
      let port := if String.eqb port "" then "8080" else port in
      Run (":" ++ port) db
  end.

(** * The vocabulary of the properties *)

(** [10 << 20], the argument [createAlbum] gives [ParseMultipartForm]. *)
Definition MiB10 : Z := Z.shiftl 10 20.

(** The form of a request as [createAlbum] parses it (line 68). *)
Definition parsed (c : gin.Context) : result http.Parsed error :=
  http.ParseMultipartForm MiB10 (gin.Request c).

(** The scalar fields pass the checks of lines 79-88. *)
Definition validated (form : http.Parsed) (year : Z) : Prop :=
  http.FormValue form "artist" ≠ ""
  ∧ http.FormValue form "title" ≠ ""
  ∧ http.FormValue form "year" ≠ ""
  ∧ strconv.Atoi (http.FormValue form "year") = Ok year
  ∧ 0 < year.

(** The checks of lines 79-88 turn the request down. *)
Definition invalid_fields (form : http.Parsed) : Prop :=
  http.FormValue form "artist" = ""
  ∨ http.FormValue form "title" = ""
  ∨ http.FormValue form "year" = ""
  ∨ (∃ e, strconv.Atoi (http.FormValue form "year") = Err e)
  ∨ (∃ y, strconv.Atoi (http.FormValue form "year") = Ok y ∧ y <= 0).

(** [c.JSON(code, gin.H{"error": msg})] *)
Definition fail (code : Z) (msg : string) : gin.Response :=
  gin.JSON code (gin.H "error" (json.Str msg)).

(** ** The return paths of [createAlbum]

    One constructor per [return] of the handler, with the conditions under
    which the source reaches it. *)

Inductive create_path (env : Env) (c : gin.Context) (db : sql.DB)
  : gin.Response * sql.DB → Prop :=
| create_bad_form e :
    parsed c = Err e →
    create_path env c db (fail 400 "Invalid form data", db)
| create_missing_field form :
    parsed c = Ok form →
    http.FormValue form "artist" = "" ∨ http.FormValue form "title" = ""
      ∨ http.FormValue form "year" = "" →
    create_path env c db (fail 400 "Artist, title, and year are required", db)
| create_bad_year form :
    parsed c = Ok form →
    http.FormValue form "artist" ≠ "" → http.FormValue form "title" ≠ "" →
    http.FormValue form "year" ≠ "" →
    (∃ e, strconv.Atoi (http.FormValue form "year") = Err e)
      ∨ (∃ y, strconv.Atoi (http.FormValue form "year") = Ok y ∧ y <= 0) →
    create_path env c db (fail 400 "Year must be a positive integer", db)
| create_no_image form year e :
    parsed c = Ok form → validated form year →
    gin.FormFile env form "image" = Err e →
    create_path env c db (fail 400 "Image is required", db)
| create_open_failed form year file e :
    parsed c = Ok form → validated form year →
    gin.FormFile env form "image" = Ok file →
    multipart.Open (open_fault env) file = Err e →
    create_path env c db (fail 500 "Failed to process image file", db)
| create_read_failed form year file openedFile e :
    parsed c = Ok form → validated form year →
    gin.FormFile env form "image" = Ok file →
    multipart.Open (open_fault env) file = Ok openedFile →
    io.ReadAll env openedFile = Err e →
    create_path env c db (fail 500 "Failed to read image file", db)
| create_insert_failed form year file openedFile imageData e db' :
    parsed c = Ok form → validated form year →
    gin.FormFile env form "image" = Ok file →
    multipart.Open (open_fault env) file = Ok openedFile →
    io.ReadAll env openedFile = Ok imageData →
    sql.Exec_insert env db (http.FormValue form "artist") (http.FormValue form "title")
      year imageData = (Err e, db') →
    create_path env c db (fail 500 "Failed to insert album", db')
| create_id_failed form year file openedFile imageData res e db' :
    parsed c = Ok form → validated form year →
    gin.FormFile env form "image" = Ok file →
    multipart.Open (open_fault env) file = Ok openedFile →
    io.ReadAll env openedFile = Ok imageData →
    sql.Exec_insert env db (http.FormValue form "artist") (http.FormValue form "title")
      year imageData = (Ok res, db') →
    sql.LastInsertId env res = Err e →
    create_path env c db (fail 500 "Failed to retrieve album ID", db')
| create_created form year file openedFile imageData res albumID db' :
    parsed c = Ok form → validated form year →
    gin.FormFile env form "image" = Ok file →
    multipart.Open (open_fault env) file = Ok openedFile →
    io.ReadAll env openedFile = Ok imageData →
    sql.Exec_insert env db (http.FormValue form "artist") (http.FormValue form "title")
      year imageData = (Ok res, db') →
    sql.LastInsertId env res = Ok albumID →
    create_path env c db (gin.JSON 201 (gin.H "AlbumID" (json.Num albumID)), db').

(** Ids come from the counter: every row's id is positive and below it. *)
Definition db_wf (db : sql.DB) : Prop :=
  0 < sql.AUTO_INCREMENT db
  ∧ ∀ k r, sql.Albums db !! k = Some r → 0 < k < sql.AUTO_INCREMENT db.

(** [later db db']: the service, started on [db], reaches [db'] by serving
    some sequence of requests. *)
Inductive later : sql.DB → sql.DB → Prop :=
| later_now db : later db db
| later_served db env r resp db' db'' :
    serve env r db = Some (resp, db') → later db' db'' → later db db''.

(** ** Concrete requests *)

(** Surroundings in which nothing fails, with MySQL in strict mode. *)
Definition env_ok : Env := mkEnv true false false false false false false.

(** The same surroundings with MySQL outside strict mode. *)
Definition env_lax : Env := mkEnv false false false false false false false.

Definition form_field (name value : string) : multipart.Part :=
  multipart.mkPart name "" (list_byte_of_string value).

Definition post_albums (parts : list multipart.Part) : gin.Context :=
  gin.mkContext (http.mkRequest "POST" "/albums" ∅ (Some parts)) [].

Definition get_albums (id : string) : gin.Context :=
  gin.mkContext (http.mkRequest "GET" ("/albums/" ++ id) ∅ None) [("id", id)].

(** A creation request as a client library sends it: the three text fields
    and the image as a file part. *)
Definition upload (artist title yearStr filename : string) (image : list byte)
  : gin.Context :=
  post_albums [form_field "artist" artist; form_field "title" title;
               form_field "year" yearStr; multipart.mkPart "image" filename image].

Definition cover : list byte := list_byte_of_string "0123456789abcdefg".

(** The scenario of the specification: 17 bytes of image. *)
Definition ok_computer : gin.Context :=
  upload "Radiohead" "OK Computer" "1997" "cover.png" cover.

(** An artist of 256 characters, one more than the column holds. *)
Definition long_name : string := string_of_list_byte (repeat "a"%byte 256).

(** The scenario of the specification under that artist. *)
Definition long_artist : gin.Context :=
  upload long_name "OK Computer" "1997" "cover.png" cover.

(** An image part that is there and holds no byte. *)
Definition empty_image : gin.Context :=
  upload "Radiohead" "OK Computer" "1997" "cover.png" [].

(** An image of one byte more than 10 MiB. *)
Definition big_image : list byte := repeat x00 (Z.to_nat (MiB10 + 1)).

(** The scenario of the specification with that image. *)
Definition oversized : gin.Context :=
  upload "Radiohead" "OK Computer" "1997" "cover.png" big_image.

(** The surroundings in which reading a spooled file back fails. *)
Definition env_read_fault : Env := mkEnv true false false true false false false.

(** The bytes the parts of a request carry (the body on the wire is larger
    still: it adds the boundaries and the headers of the parts). *)
Definition payload_bytes (c : gin.Context) : Z :=
  match http.Body (gin.Request c) with
  | None => 0
  | Some parts => fold_right (fun p n => multipart.len (multipart.Content p) + n) 0 parts
  end.

(** The three text fields and no image part. *)
Definition no_image : gin.Context :=
  post_albums [form_field "artist" "Radiohead"; form_field "title" "OK Computer";
               form_field "year" "1997"].

(** A year that parses, to zero. *)
Definition year_zero : gin.Context :=
  upload "Radiohead" "OK Computer" "0" "cover.png" cover.


(** The form [ParseMultipartForm] makes of an [upload] request. *)
Definition upload_form (artist title yearStr filename : string) (image : list byte)
  : http.Parsed :=
  let values : gmap string (list string) :=
    <["year" := [yearStr]]> (<["title" := [title]]> (<["artist" := [artist]]> ∅)) in
  http.mkParsed values
    (multipart.mkForm values
       {["image" := [multipart.mkFileHeader filename (multipart.len image) image
                       (MiB10 <? multipart.len image)]]}).

(** The form of [no_image]. *)
Definition no_image_form : http.Parsed :=
  let values : gmap string (list string) :=
    <["year" := ["1997"]]> (<["title" := ["OK Computer"]]> (<["artist" := ["Radiohead"]]> ∅)) in
  http.mkParsed values (multipart.mkForm values ∅).

(** A row as the service leaves it in the table. *)
Definition row_ok (r : sql.Row) : Prop :=
  sql.artist r ≠ "" ∧ sql.title r ≠ "" ∧ 0 < sql.year r ∧ sql.fits r = true.

(** The surroundings in which [LastInsertId] fails. *)
Definition env_id_fault : Env := mkEnv true false false false false true false.

(** * Lemmas *)

(** ** [strconv.Atoi] on sample inputs *)

Example Atoi_1997 : strconv.Atoi "1997" = Ok 1997.
Proof. reflexivity. Qed.
Example Atoi_neg5 : strconv.Atoi "-5" = Ok (-5).
Proof. reflexivity. Qed.
Example Atoi_abc : strconv.Atoi "abc" = Err strconv.ErrSyntax.
Proof. reflexivity. Qed.
Example Atoi_big : strconv.Atoi "9223372036854775808" = Err strconv.ErrRange.
Proof. reflexivity. Qed.
Example Atoi_min : strconv.Atoi "-9223372036854775808" = Ok (-9223372036854775808).
Proof. reflexivity. Qed.
Example Atoi_plus : strconv.Atoi "+" = Err strconv.ErrSyntax.
Proof. reflexivity. Qed.

Lemma string_eqb_false (s t : string) : String.eqb s t = false ↔ s ≠ t.
Proof. apply String.eqb_neq. Qed.

Lemma createAlbum_path env c db : create_path env c db (createAlbum env c db).
Proof.
  unfold createAlbum.
  destruct (http.ParseMultipartForm _ _) as [form|e] eqn:Hparse;
    [|by eapply create_bad_form].
  destruct (String.eqb (http.FormValue form "artist") "") eqn:Ha;
    [apply String.eqb_eq in Ha; eapply create_missing_field; eauto|].
  destruct (String.eqb (http.FormValue form "title") "") eqn:Ht;
    [apply String.eqb_eq in Ht; eapply create_missing_field; eauto|].
  destruct (String.eqb (http.FormValue form "year") "") eqn:Hy;
    [apply String.eqb_eq in Hy; eapply create_missing_field; eauto|].
  apply string_eqb_false in Ha, Ht, Hy. cbn [orb].
  destruct (strconv.Atoi _) as [year|e] eqn:Hyear;
    [|eapply create_bad_year; eauto].
  destruct (Z.leb_spec year 0) as [Hle|Hpos];
    [eapply create_bad_year; eauto|].
  assert (validated form year) as Hv by done.
  destruct (gin.FormFile env form "image") as [file|e] eqn:Hfile;
    [|by eapply create_no_image].
  destruct (multipart.Open _ file) as [openedFile|e] eqn:Hopen;
    [|by eapply create_open_failed].
  destruct (io.ReadAll env openedFile) as [imageData|e] eqn:Hread;
    [|by eapply create_read_failed].
  destruct (sql.Exec_insert _ _ _ _ _ _) as [[res|e] db'] eqn:Hexec;
    [|by eapply create_insert_failed].
  destruct (sql.LastInsertId env res) as [albumID|e] eqn:Hid.
  - by eapply create_created.
  - by eapply create_id_failed.
Qed.

(** ** The storage layer *)

Lemma INT_MAX_eq : sql.INT_MAX = 2147483647.
Proof. reflexivity. Qed.

Lemma INT_MIN_eq : sql.INT_MIN = -2147483648.
Proof. reflexivity. Qed.

Lemma MEDIUMBLOB_MAX_eq : sql.MEDIUMBLOB_MAX = 16777215.
Proof. reflexivity. Qed.

Lemma MiB10_eq : MiB10 = 10485760.
Proof. reflexivity. Qed.

Lemma fits_iff (r : sql.Row) :
  sql.fits r = true ↔
    sql.strlen (sql.artist r) <= 255 ∧ sql.strlen (sql.title r) <= 255
    ∧ -2147483648 <= sql.year r <= 2147483647
    ∧ multipart.len (sql.image r) <= 16777215.
Proof.
  unfold sql.fits. rewrite !andb_true_iff, !Z.leb_le.
  rewrite INT_MAX_eq, INT_MIN_eq, MEDIUMBLOB_MAX_eq. unfold sql.VARCHAR_255. tauto.
Qed.

(** The outcome of the INSERT: it fails and changes nothing, or it stores
    one row under the id the counter held. *)
Lemma Exec_insert_inv env db a t y i res db' :
  sql.Exec_insert env db a t y i = (res, db') →
  (∃ e, res = Err e ∧ db' = db)
  ∨ (∃ row, res = Ok (sql.AUTO_INCREMENT db)
       ∧ exec_fault env = false
       ∧ sql.AUTO_INCREMENT db <= sql.INT_MAX
       ∧ sql.store (sql_strict env) (sql.mkRow a t y i) = Some row
       ∧ db' = sql.mkDB (<[sql.AUTO_INCREMENT db := row]> (sql.Albums db))
                 (sql.AUTO_INCREMENT db + 1)).
Proof.
  unfold sql.Exec_insert. intros H.
  destruct (exec_fault env); [left; exists ErrDriver; by inversion H|].
  destruct (Z.ltb_spec sql.INT_MAX (sql.AUTO_INCREMENT db));
    [left; exists ErrDriver; by inversion H|].
  destruct (sql.store _ _) as [row|];
    [|left; exists ErrDriver; by inversion H].
  right. exists row. by inversion H.
Qed.

Lemma Exec_insert_fits env db a t y i :
  exec_fault env = false →
  sql.AUTO_INCREMENT db <= sql.INT_MAX →
  sql.fits (sql.mkRow a t y i) = true →
  sql.Exec_insert env db a t y i =
    (Ok (sql.AUTO_INCREMENT db),
     sql.mkDB (<[sql.AUTO_INCREMENT db := sql.mkRow a t y i]> (sql.Albums db))
       (sql.AUTO_INCREMENT db + 1)).
Proof.
  intros Hf Hn Hfit. unfold sql.Exec_insert, sql.store. rewrite Hf, Hfit.
  destruct (Z.ltb_spec sql.INT_MAX (sql.AUTO_INCREMENT db)); [lia|done].
Qed.

Lemma empty_wf : db_wf sql.empty.
Proof. split; [done|]. intros k r H. unfold sql.empty in H. cbn in H. by rewrite lookup_empty in H. Qed.

Lemma Exec_insert_wf env db a t y i res db' :
  sql.Exec_insert env db a t y i = (res, db') → db_wf db → db_wf db'.
Proof.
  intros H [Hpos Hwf].
  destruct (Exec_insert_inv _ _ _ _ _ _ _ _ H) as [(e & -> & ->)|(row & -> & _ & _ & _ & ->)];
    [done|].
  split; cbn; [lia|]. intros k r Hk.
  destruct (decide (k = sql.AUTO_INCREMENT db)) as [->|Hne]; [lia|].
  rewrite lookup_insert_ne in Hk by done. apply Hwf in Hk. lia.
Qed.

Lemma Exec_insert_keeps env db a t y i res db' k r :
  sql.Exec_insert env db a t y i = (res, db') → db_wf db →
  sql.Albums db !! k = Some r → sql.Albums db' !! k = Some r.
Proof.
  intros H [_ Hwf] Hk.
  destruct (Exec_insert_inv _ _ _ _ _ _ _ _ H) as [(e & -> & ->)|(row & -> & _ & _ & _ & ->)];
    [done|].
  cbn. rewrite lookup_insert_ne; [done|]. apply Hwf in Hk. lia.
Qed.

(** [createAlbum] changes the database through its INSERT only. *)
Lemma createAlbum_db env c db :
  (createAlbum env c db).2 = db
  ∨ ∃ a t y i res, sql.Exec_insert env db a t y i = (res, (createAlbum env c db).2).
Proof.
  destruct (createAlbum_path env c db); cbn; eauto 10.
Qed.

Lemma createAlbum_wf env c db : db_wf db → db_wf (createAlbum env c db).2.
Proof.
  intros Hwf. destruct (createAlbum_db env c db) as [->|(a & t & y & i & res & H)];
    [done|by eapply Exec_insert_wf].
Qed.

Lemma createAlbum_keeps env c db k r :
  db_wf db → sql.Albums db !! k = Some r →
  sql.Albums (createAlbum env c db).2 !! k = Some r.
Proof.
  intros Hwf Hk. destruct (createAlbum_db env c db) as [->|(a & t & y & i & res & H)];
    [done|by eapply Exec_insert_keeps].
Qed.

Lemma getAlbum_db env c db : (getAlbum env c db).2 = db.
Proof.
  unfold getAlbum. destruct (strconv.Atoi _); [|done].
  by destruct (sql.QueryRow_Scan _ _ _) as [?|[]].
Qed.

Lemma serve_db env r db resp db' :
  serve env r db = Some (resp, db') →
  db' = db ∨ ∃ c, db' = (createAlbum env c db).2.
Proof.
  unfold serve. intros H.
  destruct (_ && _); [left; by inversion H|].
  destruct (_ && _); [right; eexists; injection H as H'; by rewrite H'|].
  destruct (String.eqb _ _); [|done].
  destruct (path_param _ _) as [id|]; [|done].
  left. injection H as H'.
  pose proof (getAlbum_db env (gin.mkContext r [("id", id)]) db) as Hg.
  by rewrite H' in Hg.
Qed.

Lemma later_wf db db' : later db db' → db_wf db → db_wf db'.
Proof.
  induction 1 as [|db env r resp db' db'' Hs _ IH]; [done|].
  intros Hwf. apply IH.
  destruct (serve_db _ _ _ _ _ Hs) as [->|[c ->]]; [done|by apply createAlbum_wf].
Qed.

(** No route updates or deletes: a row, once stored, stays as it is. *)
Lemma later_keeps db db' k r :
  later db db' → db_wf db →
  sql.Albums db !! k = Some r → sql.Albums db' !! k = Some r.
Proof.
  induction 1 as [|db env rq resp db' db'' Hs _ IH]; [done|].
  intros Hwf Hk.
  destruct (serve_db _ _ _ _ _ Hs) as [->|[c ->]]; [by apply IH|].
  apply IH; [by apply createAlbum_wf|by apply createAlbum_keeps].
Qed.

(** ** JSON bodies *)

(** Decoding the body of a [getAlbum] response gives back the album that
    was encoded: the fields [omitempty] drops are the zero values a decoder
    fills in. *)
Lemma Unmarshal_Marshal_Album (a : Album) :
  json.Unmarshal_Album (json.Marshal_Album a) = Some a.
Proof.
  destruct a as [id ar ti ye im]. unfold json.Marshal_Album. cbn.
  destruct (Z.eqb_spec id 0) as [->|_]; destruct im; reflexivity.
Qed.

Lemma Marshal_Album_image (a : Album) :
  json.field "image" (json.Marshal_Album a)
  = if json.is_nil (Image a) then None else Some (json.Base64 (Image a)).
Proof.
  destruct a as [id ar ti ye im]. unfold json.Marshal_Album. cbn.
  destruct (id =? 0); destruct im; reflexivity.
Qed.

(** ** [getAlbum], path by path *)

Lemma getAlbum_bad_id env c db e :
  strconv.Atoi (gin.Param c "id") = Err e →
  getAlbum env c db = (fail 400 "Invalid album ID", db).
Proof. intros H. unfold getAlbum. by rewrite H. Qed.

Lemma getAlbum_not_found env c db id :
  strconv.Atoi (gin.Param c "id") = Ok id →
  query_fault env = false →
  sql.Albums db !! id = None →
  getAlbum env c db = (fail 404 "Album not found", db).
Proof.
  intros H Hq Hl. unfold getAlbum, sql.QueryRow_Scan. by rewrite H, Hq, Hl.
Qed.

Lemma getAlbum_found env c db id r :
  strconv.Atoi (gin.Param c "id") = Ok id →
  query_fault env = false →
  sql.Albums db !! id = Some r →
  getAlbum env c db =
    (gin.JSON 200
       (json.Marshal_Album
          (mkAlbum id (sql.artist r) (sql.title r) (sql.year r) (sql.image r))), db).
Proof.
  intros H Hq Hl. unfold getAlbum, sql.QueryRow_Scan. by rewrite H, Hq, Hl.
Qed.

Lemma getAlbum_storage_error env c db id :
  strconv.Atoi (gin.Param c "id") = Ok id →
  query_fault env = true →
  getAlbum env c db = (fail 500 "Database error", db).
Proof.
  intros H Hq. unfold getAlbum, sql.QueryRow_Scan. by rewrite H, Hq.
Qed.

(** ** [createAlbum] on a request that passes every check *)

Lemma createAlbum_created env c db form year file openedFile imageData :
  parsed c = Ok form → validated form year →
  gin.FormFile env form "image" = Ok file →
  multipart.Open (open_fault env) file = Ok openedFile →
  io.ReadAll env openedFile = Ok imageData →
  exec_fault env = false → last_insert_id_fault env = false →
  sql.AUTO_INCREMENT db <= sql.INT_MAX →
  sql.fits (sql.mkRow (http.FormValue form "artist") (http.FormValue form "title")
              year imageData) = true →
  createAlbum env c db =
    (gin.JSON 201 (gin.H "AlbumID" (json.Num (sql.AUTO_INCREMENT db))),
     sql.mkDB
       (<[sql.AUTO_INCREMENT db :=
            sql.mkRow (http.FormValue form "artist") (http.FormValue form "title")
              year imageData]> (sql.Albums db))
       (sql.AUTO_INCREMENT db + 1)).
Proof.
  unfold parsed. intros Hp (Ha & Ht & Hy & Hyear & Hpos) Hf Ho Hr He Hl Hn Hfit.
  unfold createAlbum. fold MiB10. rewrite Hp.
  apply string_eqb_false in Ha, Ht, Hy. rewrite Ha, Ht, Hy. cbn [orb].
  rewrite Hyear. destruct (Z.leb_spec year 0); [lia|].
  rewrite Hf, Ho, Hr, (Exec_insert_fits _ _ _ _ _ _ He Hn Hfit).
  unfold sql.LastInsertId. by rewrite Hl.
Qed.

(** ** The form parser, part by part *)

Lemma len_list_byte_of_string (s : string) :
  multipart.len (list_byte_of_string s) = sql.strlen s.
Proof.
  unfold multipart.len, sql.strlen, list_byte_of_string. rewrite length_map.
  f_equal. induction s as [|a s IH]; [done|]. cbn. by rewrite IH.
Qed.

Lemma readForm_field p ps m v form :
  multipart.FormName p ≠ "" → multipart.FileName p = "" →
  multipart.len (multipart.Content p) <= v →
  multipart.readForm (p :: ps) m v form =
    multipart.readForm ps m (v - multipart.len (multipart.Content p))
      (multipart.mkForm
         (multipart.append_at (multipart.FormName p)
            (string_of_list_byte (multipart.Content p)) (multipart.Value form))
         (multipart.File form)).
Proof.
  intros Hn Hf Hle. cbn [multipart.readForm].
  apply string_eqb_false in Hn. rewrite Hn, Hf. cbn [String.eqb].
  destruct (Z.ltb_spec (v - multipart.len (multipart.Content p)) 0); [lia|done].
Qed.

(** A file part larger than what is left of the memory budget is not
    refused: it is spooled to disk and the parse goes on with the budgets
    as they were. *)
Lemma readForm_spooled p ps m v form :
  multipart.FormName p ≠ "" → multipart.FileName p ≠ "" →
  m < multipart.len (multipart.Content p) →
  multipart.readForm (p :: ps) m v form =
    multipart.readForm ps m v
      (multipart.mkForm (multipart.Value form)
         (multipart.append_at (multipart.FormName p)
            (multipart.mkFileHeader (multipart.FileName p)
               (multipart.len (multipart.Content p)) (multipart.Content p) true)
            (multipart.File form))).
Proof.
  intros Hn Hf Hlt. cbn [multipart.readForm].
  apply string_eqb_false in Hn, Hf. rewrite Hn, Hf.
  destruct (Z.ltb_spec m (multipart.len (multipart.Content p))); [done|lia].
Qed.

Lemma readForm_in_memory p ps m v form :
  multipart.FormName p ≠ "" → multipart.FileName p ≠ "" →
  multipart.len (multipart.Content p) <= m →
  multipart.readForm (p :: ps) m v form =
    multipart.readForm ps (m - multipart.len (multipart.Content p))
      (v - multipart.len (multipart.Content p))
      (multipart.mkForm (multipart.Value form)
         (multipart.append_at (multipart.FormName p)
            (multipart.mkFileHeader (multipart.FileName p)
               (multipart.len (multipart.Content p)) (multipart.Content p) false)
            (multipart.File form))).
Proof.
  intros Hn Hf Hle. cbn [multipart.readForm].
  apply string_eqb_false in Hn, Hf. rewrite Hn, Hf.
  destruct (Z.ltb_spec m (multipart.len (multipart.Content p))); [lia|done].
Qed.




(** ** The form of an [upload] request *)

Lemma strlen_nonneg s : 0 <= sql.strlen s.
Proof. unfold sql.strlen. lia. Qed.

Lemma parsed_upload artist title yearStr filename image :
  filename ≠ "" →
  sql.strlen artist + sql.strlen title + sql.strlen yearStr <= MiB10 →
  parsed (upload artist title yearStr filename image)
  = Ok (upload_form artist title yearStr filename image).
Proof.
  intros Hfn Hsz.
  pose proof (strlen_nonneg artist). pose proof (strlen_nonneg title).
  pose proof (strlen_nonneg yearStr).
  unfold parsed, upload, post_albums, http.ParseMultipartForm, multipart.ReadForm.
  cbn [gin.Request http.Body]. fold MiB10.
  unfold form_field.
  do 3 (rewrite readForm_field;
        cbn [multipart.FormName multipart.FileName multipart.Content];
        rewrite ?len_list_byte_of_string, ?string_of_list_byte_of_string;
        [|done|done|lia]).
  cbn [multipart.Value multipart.File http.Query].
  assert (multipart.append_at "year" yearStr
            (multipart.append_at "title" title
               (multipart.append_at "artist" artist ∅))
          = <["year" := [yearStr]]> (<["title" := [title]]> (<["artist" := [artist]]> ∅)))
    as ->.
  { unfold multipart.append_at.
    rewrite lookup_empty. cbn [default app].
    rewrite !lookup_insert_ne by done. by rewrite lookup_empty. }
  unfold upload_form.
  destruct (Z.ltb_spec MiB10 (multipart.len image)) as [Hbig|Hsmall].
  - rewrite readForm_spooled by done. cbn.
    rewrite (left_id ∅ _). unfold multipart.append_at. by rewrite lookup_empty.
  - rewrite readForm_in_memory by done. cbn.
    rewrite (left_id ∅ _). unfold multipart.append_at. by rewrite lookup_empty.
Qed.

Lemma FormValue_upload artist title yearStr filename image :
  let form := upload_form artist title yearStr filename image in
  http.FormValue form "artist" = artist
  ∧ http.FormValue form "title" = title
  ∧ http.FormValue form "year" = yearStr.
Proof.
  unfold http.FormValue, upload_form. cbn [http.Form].
  split; [|split]; reflexivity.
Qed.

Lemma FormFile_upload env artist title yearStr filename image :
  gin.FormFile env (upload_form artist title yearStr filename image) "image"
  = if (MiB10 <? multipart.len image) && formfile_open_fault env
    then Err ErrIO
    else Ok (multipart.mkFileHeader filename (multipart.len image) image
               (MiB10 <? multipart.len image)).
Proof.
  unfold gin.FormFile, http.FormFile, upload_form, multipart.Open.
  cbn [http.MultipartForm multipart.File]. rewrite lookup_singleton_eq.
  cbn. by destruct (_ && _).
Qed.

Lemma validated_upload artist title yearStr filename image year :
  artist ≠ "" → title ≠ "" → strconv.Atoi yearStr = Ok year → 0 < year →
  validated (upload_form artist title yearStr filename image) year.
Proof.
  intros Ha Ht Hy Hpos.
  unfold validated.
  destruct (FormValue_upload artist title yearStr filename image) as (Ea & Et & Ey).
  rewrite Ea, Et, Ey. repeat split; try done. intros ->. discriminate Hy.
Qed.

Lemma len_big_image : multipart.len big_image = MiB10 + 1.
Proof.
  unfold multipart.len, big_image. rewrite repeat_length, Z2Nat.id; [done|].
  rewrite MiB10_eq. lia.
Qed.

(** ** The failing paths of [createAlbum] past the field checks *)

Ltac pass_field_checks Hp Hv :=
  let Ha := fresh "Ha" in
  let Ht := fresh "Ht" in
  let Hy := fresh "Hy" in
  let Hyear := fresh "Hyear" in
  let Hpos := fresh "Hpos" in
  unfold parsed in Hp; unfold createAlbum; fold MiB10; rewrite Hp;
  destruct Hv as (Ha & Ht & Hy & Hyear & Hpos);
  apply string_eqb_false in Ha, Ht, Hy; rewrite Ha, Ht, Hy; cbn [orb];
  rewrite Hyear;
  match goal with |- context [?y <=? 0] => destruct (Z.leb_spec y 0); [lia|] end.

Lemma createAlbum_no_image env c db form year e :
  parsed c = Ok form → validated form year →
  gin.FormFile env form "image" = Err e →
  createAlbum env c db = (fail 400 "Image is required", db).
Proof. intros Hp Hv Hf. pass_field_checks Hp Hv. by rewrite Hf. Qed.

Lemma createAlbum_open_fails env c db form year file e :
  parsed c = Ok form → validated form year →
  gin.FormFile env form "image" = Ok file →
  multipart.Open (open_fault env) file = Err e →
  createAlbum env c db = (fail 500 "Failed to process image file", db).
Proof. intros Hp Hv Hf Ho. pass_field_checks Hp Hv. by rewrite Hf, Ho. Qed.

Lemma createAlbum_read_fails env c db form year file openedFile e :
  parsed c = Ok form → validated form year →
  gin.FormFile env form "image" = Ok file →
  multipart.Open (open_fault env) file = Ok openedFile →
  io.ReadAll env openedFile = Err e →
  createAlbum env c db = (fail 500 "Failed to read image file", db).
Proof. intros Hp Hv Hf Ho Hr. pass_field_checks Hp Hv. by rewrite Hf, Ho, Hr. Qed.

Lemma FormFile_missing env form :
  multipart.File (http.MultipartForm form) !! "image" = None →
  gin.FormFile env form "image" = Err ErrMissingFile.
Proof. intros H. unfold gin.FormFile, http.FormFile. by rewrite H. Qed.

Lemma validated_not_invalid form year :
  validated form year → invalid_fields form → False.
Proof.
  intros (Ha & Ht & Hy & Hyear & Hpos) [H|[H|[H|[[e H]|(y & H & Hle)]]]];
    try done; rewrite Hyear in H; [done|]. injection H as ->. lia.
Qed.

(** ** A stored album is served back *)

Lemma created_then_found env c db form year file openedFile imageData :
  db_wf db →
  parsed c = Ok form → validated form year →
  gin.FormFile env form "image" = Ok file →
  multipart.Open (open_fault env) file = Ok openedFile →
  io.ReadAll env openedFile = Ok imageData →
  exec_fault env = false → last_insert_id_fault env = false →
  sql.AUTO_INCREMENT db <= sql.INT_MAX →
  sql.fits (sql.mkRow (http.FormValue form "artist") (http.FormValue form "title")
              year imageData) = true →
  ∃ albumID db',
    createAlbum env c db = (gin.JSON 201 (gin.H "AlbumID" (json.Num albumID)), db')
    ∧ 0 < albumID
    ∧ sql.Albums db' !! albumID
      = Some (sql.mkRow (http.FormValue form "artist") (http.FormValue form "title")
                year imageData)
    ∧ ∀ db'' env' c',
        later db' db'' →
        strconv.Atoi (gin.Param c' "id") = Ok albumID →
        query_fault env' = false →
        getAlbum env' c' db'' =
          (gin.JSON 200
             (json.Marshal_Album
                (mkAlbum albumID (http.FormValue form "artist")
                   (http.FormValue form "title") year imageData)), db'').
Proof.
  intros Hwf Hp Hv Hf Ho Hr He Hl Hn Hfit.
  pose proof (createAlbum_created _ _ _ _ _ _ _ _ Hp Hv Hf Ho Hr He Hl Hn Hfit) as Hc.
  eexists _, _. split; [exact Hc|]. split; [apply Hwf|].
  split; [cbn; apply lookup_insert_eq|].
  intros db'' env' c' Hlater Hid Hq.
  eapply (getAlbum_found env' c' db'' _ (sql.mkRow _ _ _ _)); [done..|].
  eapply later_keeps; [exact Hlater| |cbn; apply lookup_insert_eq].
  pose proof (createAlbum_wf env c db Hwf) as Hwf'. by rewrite Hc in Hwf'.
Qed.

(** What the server stores keeps a non-empty string non-empty and a
    positive year positive, in either SQL mode. *)
Lemma store_keeps strict r r' :
  sql.store strict r = Some r' →
  (sql.artist r ≠ "" → sql.artist r' ≠ "")
  ∧ (sql.title r ≠ "" → sql.title r' ≠ "")
  ∧ (0 < sql.year r → 0 < sql.year r').
Proof.
  unfold sql.store. destruct (sql.fits r); [by intros [= <-]|].
  destruct strict; [done|]. intros [= <-]. cbn.
  repeat split.
  - destruct (sql.artist r); [done|]. by cbn.
  - destruct (sql.title r); [done|]. by cbn.
  - rewrite INT_MAX_eq, INT_MIN_eq. lia.
Qed.

(** ** [createAlbum] on an [upload] request *)

Section Upload.

Variables (env : Env) (db : sql.DB).
Variables (artist title yearStr filename : string) (image : list byte) (year : Z).

Hypothesis Hfilename : filename ≠ "".
Hypothesis Hartist : artist ≠ "".
Hypothesis Htitle : title ≠ "".
Hypothesis Hyear : strconv.Atoi yearStr = Ok year.
Hypothesis Hpos : 0 < year.
Hypothesis Hfields :
  sql.strlen artist + sql.strlen title + sql.strlen yearStr <= MiB10.
Hypothesis Hformfile : formfile_open_fault env = false.
Hypothesis Hopen : open_fault env = false.

Let form := upload_form artist title yearStr filename image.
Let file := multipart.mkFileHeader filename (multipart.len image) image
              (MiB10 <? multipart.len image).
Let openedFile := multipart.mkFile image (MiB10 <? multipart.len image).

Lemma upload_opened :
  parsed (upload artist title yearStr filename image) = Ok form
  ∧ validated form year
  ∧ http.FormValue form "artist" = artist
  ∧ http.FormValue form "title" = title
  ∧ gin.FormFile env form "image" = Ok file
  ∧ multipart.Open (open_fault env) file = Ok openedFile.
Proof using All.
  split; [by apply parsed_upload|]. split; [by apply validated_upload|].
  destruct (FormValue_upload artist title yearStr filename image) as (Ea & Et & _).
  split; [exact Ea|]. split; [exact Et|]. split.
  - subst form file. rewrite FormFile_upload, Hformfile. by rewrite andb_false_r.
  - subst file openedFile. unfold multipart.Open. rewrite Hopen.
    cbn [multipart.tmpfile multipart.content]. by rewrite andb_false_r.
Qed.

(** The size of the image decides nothing but where the parser keeps it:
    any image the column can hold is stored. *)
Lemma createAlbum_upload :
  read_fault env = false → exec_fault env = false → last_insert_id_fault env = false →
  sql.AUTO_INCREMENT db <= sql.INT_MAX →
  sql.strlen artist <= 255 → sql.strlen title <= 255 → year <= sql.INT_MAX →
  multipart.len image <= sql.MEDIUMBLOB_MAX →
  createAlbum env (upload artist title yearStr filename image) db =
    (gin.JSON 201 (gin.H "AlbumID" (json.Num (sql.AUTO_INCREMENT db))),
     sql.mkDB
       (<[sql.AUTO_INCREMENT db := sql.mkRow artist title year image]> (sql.Albums db))
       (sql.AUTO_INCREMENT db + 1)).
Proof using All.
  intros Hr He Hl Hn Ha Ht Hy Hi.
  destruct upload_opened as (Hp & Hv & Ea & Et & Hf & Ho).
  assert (io.ReadAll env openedFile = Ok image) as Hread.
  { subst openedFile. unfold io.ReadAll. rewrite Hr.
    cbn [multipart.on_disk multipart.data]. by rewrite andb_false_r. }
  assert (sql.fits (sql.mkRow (http.FormValue form "artist")
                      (http.FormValue form "title") year image) = true) as Hfit.
  { apply fits_iff. cbn [sql.artist sql.title sql.year sql.image].
    rewrite Ea, Et. rewrite INT_MAX_eq in Hy. rewrite MEDIUMBLOB_MAX_eq in Hi. lia. }
  rewrite (createAlbum_created env _ db form year file openedFile image
             Hp Hv Hf Ho Hread He Hl Hn Hfit).
  by rewrite Ea, Et.
Qed.

(** A spooled image that cannot be read back is a server error. *)
Lemma createAlbum_upload_unreadable :
  MiB10 < multipart.len image → read_fault env = true →
  io.ReadAll env openedFile = Err ErrIO
  ∧ createAlbum env (upload artist title yearStr filename image) db
    = (fail 500 "Failed to read image file", db).
Proof using All.
  intros Hbig Hr.
  destruct upload_opened as (Hp & Hv & Ea & Et & Hf & Ho).
  assert (io.ReadAll env openedFile = Err ErrIO) as Hread.
  { subst openedFile. unfold io.ReadAll. rewrite Hr.
    cbn [multipart.on_disk multipart.data].
    by destruct (Z.ltb_spec MiB10 (multipart.len image)); [|lia]. }
  split; [exact Hread|]. by eapply createAlbum_read_fails.
Qed.

End Upload.

Lemma strlen_fields_small :
  sql.strlen "Radiohead" + sql.strlen "OK Computer" + sql.strlen "1997" <= MiB10.
Proof. vm_compute. discriminate. Qed.

(** * The claims *)

(** C1 (as amended).  A creation request with a non-empty artist and title
    of at most 255 characters each, a year string that parses as a positive
    integer of at most 2147483647, and a readable image payload of at most
    10 MiB, served while the storage layer is available and its id counter
    is not exhausted, is answered 201 with a positive id; and whenever
    later, after any further requests, [getAlbum] is asked for that id and
    its query does not fail, it answers 200 with a body that decodes to
    exactly that id, artist, title, year and image. *)
Theorem create_then_get env c db form year file openedFile imageData :
  db_wf db →
  parsed c = Ok form → validated form year →
  gin.FormFile env form "image" = Ok file →
  multipart.Open (open_fault env) file = Ok openedFile →
  io.ReadAll env openedFile = Ok imageData →
  multipart.len imageData <= MiB10 →
  sql.strlen (http.FormValue form "artist") <= 255 →
  sql.strlen (http.FormValue form "title") <= 255 →
  year <= sql.INT_MAX →
  exec_fault env = false → last_insert_id_fault env = false →
  sql.AUTO_INCREMENT db <= sql.INT_MAX →
  ∃ albumID db',
    createAlbum env c db = (gin.JSON 201 (gin.H "AlbumID" (json.Num albumID)), db')
    ∧ 0 < albumID
    ∧ ∀ db'' env' c',
        later db' db'' →
        strconv.Atoi (gin.Param c' "id") = Ok albumID →
        query_fault env' = false →
        ∃ body,
          getAlbum env' c' db'' = (gin.JSON 200 body, db'')
          ∧ json.Unmarshal_Album body =
              Some (mkAlbum albumID (http.FormValue form "artist")
                      (http.FormValue form "title") year imageData).
Proof.
  intros Hwf Hp Hv Hf Ho Hr Hsize Ha Ht Hy He Hl Hn.
  assert (sql.fits (sql.mkRow (http.FormValue form "artist")
                      (http.FormValue form "title") year imageData) = true) as Hfit.
  { apply fits_iff. cbn. rewrite MiB10_eq in Hsize. rewrite INT_MAX_eq in Hy.
    destruct Hv as (_ & _ & _ & _ & Hpos). lia. }
  pose proof (createAlbum_created _ _ _ _ _ _ _ _ Hp Hv Hf Ho Hr He Hl Hn Hfit) as Hc.
  eexists _, _. split; [exact Hc|]. split; [apply Hwf|].
  intros db'' env' c' Hlater Hid Hq.
  eexists. split.
  - eapply getAlbum_found; [done..|].
    eapply later_keeps; [exact Hlater| |cbn; apply lookup_insert_eq].
    pose proof (createAlbum_wf env c db Hwf) as Hwf'. by rewrite Hc in Hwf'.
  - apply Unmarshal_Marshal_Album.
Qed.

(** The scenario of the specification on a fresh table: id 1, and the
    lookup of ["1"] right after it returns the 17 bytes. *)
Lemma create_then_get_witness :
  ∃ form,
    parsed ok_computer = Ok form
    ∧ http.FormValue form "artist" = "Radiohead"
    ∧ http.FormValue form "title" = "OK Computer"
    ∧ ∃ albumID db',
        createAlbum env_ok ok_computer sql.empty
          = (gin.JSON 201 (gin.H "AlbumID" (json.Num albumID)), db')
        ∧ 0 < albumID
        ∧ ∀ db'' env' c',
            later db' db'' →
            strconv.Atoi (gin.Param c' "id") = Ok albumID →
            query_fault env' = false →
            ∃ body,
              getAlbum env' c' db'' = (gin.JSON 200 body, db'')
              ∧ json.Unmarshal_Album body =
                  Some (mkAlbum albumID (http.FormValue form "artist")
                          (http.FormValue form "title") 1997 cover).
Proof.
  eexists. split; [vm_compute; reflexivity|].
  split; [vm_compute; reflexivity|]. split; [vm_compute; reflexivity|].
  eapply (create_then_get env_ok ok_computer sql.empty _ 1997).
  - exact empty_wf.
  - vm_compute. reflexivity.
  - repeat split; vm_compute; congruence.
  - vm_compute. reflexivity.
  - vm_compute. reflexivity.
  - vm_compute. reflexivity.
  - vm_compute. congruence.
  - vm_compute. congruence.
  - vm_compute. congruence.
  - vm_compute. congruence.
  - reflexivity.
  - reflexivity.
  - vm_compute. congruence.
Defined.

(** C1 as stated fails: an artist of 256 characters passes every check of
    the handler, yet in strict SQL mode the INSERT is refused and the answer
    is 500, and outside strict mode the row is stored with the artist cut to
    255 characters, so that the lookup does not return the artist sent. *)
Lemma create_long_artist :
  (∃ form file openedFile,
     parsed long_artist = Ok form ∧ validated form 1997
     ∧ http.FormValue form "artist" = long_name
     ∧ gin.FormFile env_ok form "image" = Ok file
     ∧ multipart.Open false file = Ok openedFile
     ∧ io.ReadAll env_ok openedFile = Ok cover
     ∧ multipart.len cover <= MiB10)
  ∧ createAlbum env_ok long_artist sql.empty
    = (fail 500 "Failed to insert album", sql.empty)
  ∧ ∃ db' body a,
      createAlbum env_lax long_artist sql.empty
        = (gin.JSON 201 (gin.H "AlbumID" (json.Num 1)), db')
      ∧ getAlbum env_lax (get_albums "1") db' = (gin.JSON 200 body, db')
      ∧ json.Unmarshal_Album body = Some a
      ∧ Artist a ≠ long_name.
Proof.
  split; [|split].
  - eexists _, _, _. repeat split; try (vm_compute; congruence); vm_compute; reflexivity.
  - vm_compute. reflexivity.
  - eexists _, _, _. repeat split; try (vm_compute; reflexivity).
    intros H. apply (f_equal sql.strlen) in H. vm_compute in H. discriminate H.
Qed.

(** C2.  A creation request in which the artist, the title or the year is
    missing (its form value is empty), or whose year string does not parse
    as an integer, or parses to an integer that is zero or negative, is
    answered 400, and the database, rows and id counter alike, is left as
    it was. *)
Theorem createAlbum_invalid_fields env c db :
  (∀ form, parsed c = Ok form → invalid_fields form) →
  ∃ msg, createAlbum env c db = (fail 400 msg, db).
Proof.
  intros Hinv.
  destruct (createAlbum_path env c db)
    as [e Hp|form Hp H|form Hp Ha Ht Hy H|form year e Hp Hv
        |form year file e Hp Hv|form year file f e Hp Hv
        |form year file f i e db' Hp Hv|form year file f i res e db' Hp Hv
        |form year file f i res albumID db' Hp Hv];
    try (by eexists);
    exfalso; eapply validated_not_invalid; eauto.
Qed.

(** A year of zero on a fresh table: 400, and the table is still fresh. *)
Lemma createAlbum_invalid_fields_witness :
  ∃ msg, createAlbum env_ok year_zero sql.empty = (fail 400 msg, sql.empty).
Proof.
  apply (createAlbum_invalid_fields env_ok year_zero sql.empty).
  intros form Hp. unfold year_zero in Hp.
  rewrite parsed_upload in Hp by (vm_compute; discriminate).
  injection Hp as <-.
  right. right. right. right. exists 0. split; [reflexivity|discriminate].
Defined.

(** C3, at the failing input.  A well-formed request whose image is one
    byte larger than 10 MiB is not turned down by [ParseMultipartForm]: the
    image is spooled to disk, read back and stored, and the answer is 201. *)
Theorem createAlbum_oversized :
  MiB10 < payload_bytes oversized
  ∧ createAlbum env_ok oversized sql.empty
    = (gin.JSON 201 (gin.H "AlbumID" (json.Num 1)),
       sql.mkDB (<[1 := sql.mkRow "Radiohead" "OK Computer" 1997 big_image]> ∅) 2).
Proof.
  split.
  - unfold payload_bytes, oversized, upload, post_albums, form_field.
    cbn [gin.Request http.Body fold_right multipart.Content].
    rewrite len_big_image, !len_list_byte_of_string.
    pose proof (strlen_nonneg "Radiohead"). pose proof (strlen_nonneg "OK Computer").
    pose proof (strlen_nonneg "1997"). lia.
  - refine (createAlbum_upload env_ok sql.empty "Radiohead" "OK Computer" "1997"
              "cover.png" big_image 1997 _ _ _ _ _ strlen_fields_small
              _ _ _ _ _ _ _ _ _ _);
      rewrite ?len_big_image;
      first [reflexivity | discriminate | vm_compute; discriminate].
Qed.

(** The part of C3 the code keeps: a body the parser turns down is answered
    400, and nothing is stored. *)
Lemma createAlbum_bad_form env c db e :
  parsed c = Err e →
  createAlbum env c db = (fail 400 "Invalid form data", db).
Proof. unfold parsed. intros Hp. unfold createAlbum. fold MiB10. by rewrite Hp. Qed.

(** C4 (as amended).  On a request whose fields pass the checks: when the
    form holds no image part, or [FormFile] fails otherwise, the answer is
    400 "Image is required"; when the handler's own open of the payload
    fails, the answer is 500 "Failed to process image file"; when reading
    the payload fails, the answer is 500 "Failed to read image file".  In
    each case the database is left as it was. *)
Theorem createAlbum_image_errors env c db form year :
  parsed c = Ok form → validated form year →
  (multipart.File (http.MultipartForm form) !! "image" = None →
     createAlbum env c db = (fail 400 "Image is required", db))
  ∧ (∀ e, gin.FormFile env form "image" = Err e →
       createAlbum env c db = (fail 400 "Image is required", db))
  ∧ (∀ file e,
       gin.FormFile env form "image" = Ok file →
       multipart.Open (open_fault env) file = Err e →
       createAlbum env c db = (fail 500 "Failed to process image file", db))
  ∧ (∀ file openedFile e,
       gin.FormFile env form "image" = Ok file →
       multipart.Open (open_fault env) file = Ok openedFile →
       io.ReadAll env openedFile = Err e →
       createAlbum env c db = (fail 500 "Failed to read image file", db)).
Proof.
  intros Hp Hv. repeat split.
  - intros Hnone. eapply createAlbum_no_image; [done..|]. by apply FormFile_missing.
  - intros e Hf. by eapply createAlbum_no_image.
  - intros file e Hf Ho. by eapply createAlbum_open_fails.
  - intros file f e Hf Ho Hr. by eapply createAlbum_read_fails.
Qed.

(** The request without an image part: 400 "Image is required". *)
Lemma createAlbum_image_errors_witness :
  createAlbum env_ok no_image sql.empty = (fail 400 "Image is required", sql.empty).
Proof.
  refine (proj1 (createAlbum_image_errors env_ok no_image sql.empty
                   no_image_form 1997 _ _) _).
  - vm_compute. reflexivity.
  - repeat split; vm_compute; congruence.
  - vm_compute. reflexivity.
Defined.

(** C4 as stated fails: the image part of [oversized] is there, it is
    found and opened, reading it back from disk fails, and the answer is
    500, not 400. *)
Lemma createAlbum_unreadable_image :
  io.ReadAll env_read_fault (multipart.mkFile big_image (MiB10 <? multipart.len big_image))
    = Err ErrIO
  ∧ createAlbum env_read_fault oversized sql.empty
    = (fail 500 "Failed to read image file", sql.empty).
Proof.
  refine (createAlbum_upload_unreadable env_read_fault sql.empty "Radiohead"
            "OK Computer" "1997" "cover.png" big_image 1997 _ _ _ _ _
            strlen_fields_small _ _ _ _);
    rewrite ?len_big_image;
    first [reflexivity | discriminate | vm_compute; discriminate].
Qed.

(** A row of the table after [createAlbum] was there before, or it is the
    row the handler stored from a request that passed the checks. *)
Lemma createAlbum_lookup env c db k r :
  sql.Albums (createAlbum env c db).2 !! k = Some r →
  sql.Albums db !! k = Some r
  ∨ ∃ form year imageData,
      parsed c = Ok form ∧ validated form year
      ∧ k = sql.AUTO_INCREMENT db
      ∧ sql.store (sql_strict env)
          (sql.mkRow (http.FormValue form "artist") (http.FormValue form "title")
             year imageData) = Some r.
Proof.
  intros Hk.
  destruct (createAlbum_path env c db)
    as [e Hp|form Hp H|form Hp Ha Ht Hy H|form year e Hp Hv
        |form year file e Hp Hv|form year file f e Hp Hv
        |form year file f i e db' Hp Hv _ _ _ Hx
        |form year file f i res e db' Hp Hv _ _ _ Hx
        |form year file f i res albumID db' Hp Hv _ _ _ Hx];
    cbn in Hk; auto;
    (destruct (Exec_insert_inv _ _ _ _ _ _ _ _ Hx)
       as [(e' & _ & ->)|(row & _ & _ & _ & Hs & ->)]; [auto|];
     cbn in Hk;
     destruct (decide (k = sql.AUTO_INCREMENT db)) as [->|Hne];
       [rewrite lookup_insert_eq in Hk; injection Hk as ->; right; eauto 10
       |rewrite lookup_insert_ne in Hk by done; auto]).
Qed.

(** C5 (as amended).  Every row [createAlbum] stores has a non-empty
    artist, a non-empty title and a positive year, whatever the request and
    the SQL mode; the handler puts no condition on the length of the image. *)
Theorem createAlbum_row_invariant env c db k r :
  sql.Albums (createAlbum env c db).2 !! k = Some r →
  sql.Albums db !! k ≠ Some r →
  sql.artist r ≠ "" ∧ sql.title r ≠ "" ∧ 0 < sql.year r.
Proof.
  intros Hk Hnew.
  destruct (createAlbum_lookup env c db k r Hk)
    as [Hold|(form & year & i & _ & (Ha & Ht & _ & _ & Hpos) & _ & Hs)]; [done|].
  destruct (store_keeps _ _ _ Hs) as (Ka & Kt & Ky). cbn in Ka, Kt, Ky. auto.
Qed.

(** The row of the specification's scenario. *)
Lemma createAlbum_row_invariant_witness :
  sql.artist (sql.mkRow "Radiohead" "OK Computer" 1997 cover) ≠ ""
  ∧ sql.title (sql.mkRow "Radiohead" "OK Computer" 1997 cover) ≠ ""
  ∧ 0 < sql.year (sql.mkRow "Radiohead" "OK Computer" 1997 cover).
Proof.
  apply (createAlbum_row_invariant env_ok ok_computer sql.empty 1).
  - vm_compute. reflexivity.
  - vm_compute. discriminate.
Defined.

(** C5 as stated fails: the request with an image part of zero bytes is
    stored, and the row's image is empty. *)
Lemma createAlbum_stores_empty_image :
  sql.Albums (createAlbum env_ok empty_image sql.empty).2 !! 1
  = Some (sql.mkRow "Radiohead" "OK Computer" 1997 [])
  ∧ sql.Albums sql.empty !! 1 = None.
Proof. split; vm_compute; reflexivity. Qed.

(** C6.  [getAlbum] answers 400 when the id does not parse as an integer;
    404 with the body [{"error": "Album not found"}] when it does and no
    row of the table has that id; and 200 with the JSON encoding of the
    whole row when a row has it: the body decodes to the row's id, artist,
    title, year and image, and carries the image bytes.  (A query that
    fails is answered 500.) *)
Theorem getAlbum_responses env c db :
  (∀ e, strconv.Atoi (gin.Param c "id") = Err e →
     getAlbum env c db = (fail 400 "Invalid album ID", db))
  ∧ (∀ id, strconv.Atoi (gin.Param c "id") = Ok id →
       query_fault env = false → sql.Albums db !! id = None →
       getAlbum env c db
       = (gin.JSON 404 (json.Obj [("error", json.Str "Album not found")]), db))
  ∧ (∀ id r, strconv.Atoi (gin.Param c "id") = Ok id →
       query_fault env = false → sql.Albums db !! id = Some r →
       ∃ body,
         getAlbum env c db = (gin.JSON 200 body, db)
         ∧ json.Unmarshal_Album body
           = Some (mkAlbum id (sql.artist r) (sql.title r) (sql.year r) (sql.image r))
         ∧ (sql.image r ≠ [] →
              json.field "image" body = Some (json.Base64 (sql.image r))))
  ∧ (∀ id, strconv.Atoi (gin.Param c "id") = Ok id →
       query_fault env = true →
       getAlbum env c db = (fail 500 "Database error", db)).
Proof.
  split; [|split; [|split]].
  - intros e H. by apply getAlbum_bad_id with e.
  - intros id H Hq Hl. by apply getAlbum_not_found with id.
  - intros id r H Hq Hl. eexists. split; [by apply getAlbum_found|].
    split; [apply Unmarshal_Marshal_Album|].
    intros Hne. rewrite Marshal_Album_image. cbn [Image].
    by destruct (sql.image r).
  - intros id H Hq. by apply getAlbum_storage_error with id.
Qed.

(** C7.  A [GET /health] request is answered 200 with [{"status":"ok"}]
    and leaves the database as it is, whatever the database holds and
    whatever fails around the request. *)
Theorem health_always_ok env r db :
  http.Method r = "GET" → http.Path r = "/health" →
  serve env r db
  = Some (gin.JSON 200 (json.Obj [("status", json.Str "ok")]), db).
Proof. intros Hm Hp. unfold serve. by rewrite Hm, Hp. Qed.

Lemma health_always_ok_witness :
  serve env_read_fault (http.mkRequest "GET" "/health" ∅ None) sql.empty
  = Some (gin.JSON 200 (json.Obj [("status", json.Str "ok")]), sql.empty).
Proof.
  apply (health_always_ok env_read_fault (http.mkRequest "GET" "/health" ∅ None)
           sql.empty); reflexivity.
Defined.

(** C8.  When DB_DSN is not in the environment, [main] ends in
    [log.Fatal] (exit status 1) and never listens; and when [main] does
    listen, its address is ":" followed by the value of PORT if PORT is set
    to a non-empty value, and ":8080" if PORT is not set. *)
Theorem main_startup environ w :
  (environ !! "DB_DSN" = None →
     main environ w = Exit 1 "DB_DSN environment variable not set")
  ∧ (∀ addr db, main environ w = Run addr db →
       (∀ port, environ !! "PORT" = Some port → port ≠ "" → addr = ":" ++ port)
       ∧ (environ !! "PORT" = None → addr = ":8080")).
Proof.
  split.
  - intros Hd. unfold main, initDB, os.Getenv. by rewrite Hd.
  - intros addr db. unfold main. destruct (initDB environ w); [|done].
    intros [= <- _]. unfold os.Getenv. split.
    + intros port -> Hne. cbn. apply string_eqb_false in Hne. by rewrite Hne.
    + by intros ->.
Qed.

(** C9.  When the id parses as an integer that is zero or negative,
    [getAlbum] does not answer 400; the query runs, and since every stored
    id is positive it finds no row: unless the query itself fails, the
    answer is 404. *)
Theorem getAlbum_nonpositive_id env c db id :
  db_wf db →
  strconv.Atoi (gin.Param c "id") = Ok id → id <= 0 →
  gin.Status (getAlbum env c db).1 ≠ 400
  ∧ (query_fault env = false →
       getAlbum env c db = (fail 404 "Album not found", db)).
Proof.
  intros [_ Hwf] Hid Hle.
  assert (sql.Albums db !! id = None) as Hnone.
  { destruct (sql.Albums db !! id) as [r|] eqn:E; [|done]. apply Hwf in E. lia. }
  split.
  - destruct (query_fault env) eqn:Hq.
    + by rewrite (getAlbum_storage_error _ _ _ _ Hid Hq).
    + by rewrite (getAlbum_not_found _ _ _ _ Hid Hq Hnone).
  - intros Hq. by apply getAlbum_not_found with id.
Qed.

(** [/albums/-5] after the scenario of the specification. *)
Lemma getAlbum_nonpositive_id_witness :
  gin.Status (getAlbum env_ok (get_albums "-5")
                (createAlbum env_ok ok_computer sql.empty).2).1 ≠ 400
  ∧ (query_fault env_ok = false →
       getAlbum env_ok (get_albums "-5") (createAlbum env_ok ok_computer sql.empty).2
       = (fail 404 "Album not found", (createAlbum env_ok ok_computer sql.empty).2)).
Proof.
  apply (getAlbum_nonpositive_id env_ok (get_albums "-5") _ (-5)).
  - apply createAlbum_wf, empty_wf.
  - reflexivity.
  - discriminate.
Defined.

(** C10.  A creation request that passes the checks and whose image part
    is there but holds no byte is answered 201 and stores a row with an
    empty image; whenever later [getAlbum] is asked for that id (and its
    query does not fail), it answers 200 with a JSON object that has no
    "image" field. *)
Theorem create_empty_image env c db form year file openedFile :
  db_wf db →
  parsed c = Ok form → validated form year →
  gin.FormFile env form "image" = Ok file →
  multipart.Open (open_fault env) file = Ok openedFile →
  io.ReadAll env openedFile = Ok [] →
  sql.strlen (http.FormValue form "artist") <= 255 →
  sql.strlen (http.FormValue form "title") <= 255 →
  year <= sql.INT_MAX →
  exec_fault env = false → last_insert_id_fault env = false →
  sql.AUTO_INCREMENT db <= sql.INT_MAX →
  ∃ albumID db',
    createAlbum env c db = (gin.JSON 201 (gin.H "AlbumID" (json.Num albumID)), db')
    ∧ sql.image <$> sql.Albums db' !! albumID = Some []
    ∧ ∀ db'' env' c',
        later db' db'' →
        strconv.Atoi (gin.Param c' "id") = Ok albumID →
        query_fault env' = false →
        ∃ body,
          getAlbum env' c' db'' = (gin.JSON 200 body, db'')
          ∧ json.field "image" body = None
          ∧ json.field "artist" body = Some (json.Str (http.FormValue form "artist")).
Proof.
  intros Hwf Hp Hv Hf Ho Hr Ha Ht Hy He Hl Hn.
  assert (sql.fits (sql.mkRow (http.FormValue form "artist")
                      (http.FormValue form "title") year []) = true) as Hfit.
  { apply fits_iff. cbn [sql.artist sql.title sql.year sql.image].
    change (multipart.len (@nil byte)) with 0. rewrite INT_MAX_eq in Hy.
    destruct Hv as (_ & _ & _ & _ & Hpos). lia. }
  destruct (created_then_found _ _ _ _ _ _ _ _ Hwf Hp Hv Hf Ho Hr He Hl Hn Hfit)
    as (albumID & db' & Hc & Hpos & Hrow & Hget).
  exists albumID, db'. split; [exact Hc|]. split; [by rewrite Hrow|].
  intros db'' env' c' Hlater Hid Hq. eexists. split; [by apply Hget|].
  split; [by rewrite Marshal_Album_image|].
  unfold json.Marshal_Album. cbn. by destruct (albumID =? 0).
Qed.

Lemma create_empty_image_witness :
  ∃ albumID db',
    createAlbum env_ok empty_image sql.empty
      = (gin.JSON 201 (gin.H "AlbumID" (json.Num albumID)), db')
    ∧ sql.image <$> sql.Albums db' !! albumID = Some []
    ∧ ∀ db'' env' c',
        later db' db'' →
        strconv.Atoi (gin.Param c' "id") = Ok albumID →
        query_fault env' = false →
        ∃ body,
          getAlbum env' c' db'' = (gin.JSON 200 body, db'')
          ∧ json.field "image" body = None
          ∧ json.field "artist" body = Some (json.Str "Radiohead").
Proof.
  refine (create_empty_image env_ok empty_image sql.empty
            (upload_form "Radiohead" "OK Computer" "1997" "cover.png" []) 1997
            _ _ empty_wf _ _ _ _ _ _ _ _ _ _ _).
  - vm_compute. reflexivity.
  - repeat split; vm_compute; congruence.
  - vm_compute. reflexivity.
  - vm_compute. reflexivity.
  - vm_compute. reflexivity.
  - vm_compute. discriminate.
  - vm_compute. discriminate.
  - vm_compute. discriminate.
  - reflexivity.
  - reflexivity.
  - vm_compute. discriminate.
Defined.

(** * Further properties of the handlers *)

(** X1.  [main] gets to listen exactly when DB_DSN is set to a non-empty
    value and opening the database, pinging it and creating the table all
    succeed; it then serves the table the server holds (a fresh one if it
    held none) on ":" followed by PORT, or ":8080" when PORT is empty or
    not set. *)
Theorem main_listens_iff environ w addr db :
  main environ w = Run addr db ↔
    os.Getenv environ "DB_DSN" ≠ ""
    ∧ open_err w = None ∧ ping_err w = None ∧ create_table_err w = None
    ∧ db = default sql.empty (existing_table w)
    ∧ addr = ":" ++ (if String.eqb (os.Getenv environ "PORT") ""
                     then "8080" else os.Getenv environ "PORT").
Proof.
  unfold main, initDB.
  destruct (String.eqb (os.Getenv environ "DB_DSN") "") eqn:Hd.
  { apply String.eqb_eq in Hd. split; [done|]. by intros [? _]. }
  apply string_eqb_false in Hd.
  destruct (open_err w); [split; [done|]; by intros (_ & ? & _)|].
  destruct (ping_err w); [split; [done|]; by intros (_ & _ & ? & _)|].
  destruct (create_table_err w); [split; [done|]; by intros (_ & _ & _ & ? & _)|].
  split.
  - by intros [= <- <-].
  - by intros (_ & _ & _ & _ & -> & ->).
Qed.

(** X2.  A GET request never changes the database: neither the health
    route nor [getAlbum] writes. *)
Theorem get_requests_read_only env r db resp db' :
  http.Method r = "GET" → serve env r db = Some (resp, db') → db' = db.
Proof.
  intros Hm Hs. destruct (serve_db _ _ _ _ _ Hs) as [->|[c Hc]]; [done|].
  revert Hs. unfold serve. rewrite Hm. cbn [String.eqb Ascii.eqb Bool.eqb andb].
  destruct (String.eqb (http.Path r) "/health"); [by intros [= _ <-]|].
  cbn [andb]. destruct (path_param _ _) as [id|]; [|done].
  intros [= Hg]. pose proof (getAlbum_db env (gin.mkContext r [("id", id)]) db) as E.
  by rewrite Hg in E.
Qed.

(** Looking up the album of the specification's scenario. *)
Lemma get_requests_read_only_witness :
  serve env_ok (http.mkRequest "GET" "/albums/1" ∅ None)
    (createAlbum env_ok ok_computer sql.empty).2
  = Some (gin.JSON 200 (json.Marshal_Album
                          (mkAlbum 1 "Radiohead" "OK Computer" 1997 cover)),
          (createAlbum env_ok ok_computer sql.empty).2)
  ∧ (createAlbum env_ok ok_computer sql.empty).2
    = (createAlbum env_ok ok_computer sql.empty).2.
Proof.
  assert (serve env_ok (http.mkRequest "GET" "/albums/1" ∅ None)
            (createAlbum env_ok ok_computer sql.empty).2
          = Some (gin.JSON 200 (json.Marshal_Album
                                  (mkAlbum 1 "Radiohead" "OK Computer" 1997 cover)),
                  (createAlbum env_ok ok_computer sql.empty).2)) as Hs
    by (vm_compute; reflexivity).
  split; [exact Hs|].
  exact (get_requests_read_only env_ok (http.mkRequest "GET" "/albums/1" ∅ None)
           _ _ _ eq_refl Hs).
Defined.

Lemma getAlbum_200_inv env c db body db' :
  getAlbum env c db = (gin.JSON 200 body, db') →
  ∃ id r, strconv.Atoi (gin.Param c "id") = Ok id
    ∧ sql.Albums db !! id = Some r
    ∧ body = json.Marshal_Album
               (mkAlbum id (sql.artist r) (sql.title r) (sql.year r) (sql.image r)).
Proof.
  unfold getAlbum, sql.QueryRow_Scan.
  destruct (strconv.Atoi _) as [id|]; [|done].
  destruct (query_fault env); [done|].
  destruct (sql.Albums db !! id) as [r|] eqn:Hr; [|done].
  intros [= <- _]. by exists id, r.
Qed.

(** X3.  An album that [getAlbum] has served once is served unchanged ever
    after: whatever requests come in between, a later lookup of the same
    id (whose query does not fail) answers 200 with the same body. *)
Theorem served_album_stays env env' c c' db db' id body :
  db_wf db → later db db' →
  strconv.Atoi (gin.Param c "id") = Ok id →
  strconv.Atoi (gin.Param c' "id") = Ok id →
  getAlbum env c db = (gin.JSON 200 body, db) →
  query_fault env' = false →
  getAlbum env' c' db' = (gin.JSON 200 body, db').
Proof.
  intros Hwf Hl Hid Hid' Hg Hq.
  destruct (getAlbum_200_inv _ _ _ _ _ Hg) as (id0 & r & Hid0 & Hr & ->).
  rewrite Hid in Hid0. injection Hid0 as <-.
  apply getAlbum_found; [done..|]. by eapply later_keeps.
Qed.

(** The scenario of the specification, with a second creation in between. *)
Lemma served_album_stays_witness :
  getAlbum env_ok (get_albums "1")
    (createAlbum env_ok empty_image (createAlbum env_ok ok_computer sql.empty).2).2
  = (gin.JSON 200
       (json.Marshal_Album (mkAlbum 1 "Radiohead" "OK Computer" 1997 cover)),
     (createAlbum env_ok empty_image (createAlbum env_ok ok_computer sql.empty).2).2).
Proof.
  refine (served_album_stays env_ok env_ok (get_albums "1") (get_albums "1")
            (createAlbum env_ok ok_computer sql.empty).2 _ 1 _ _ _ _ _ _ _).
  - apply createAlbum_wf, empty_wf.
  - eapply (later_served _ env_ok (gin.Request empty_image)); [|apply later_now].
    vm_compute. reflexivity.
  - reflexivity.
  - reflexivity.
  - vm_compute. reflexivity.
  - reflexivity.
Defined.

(** ** What the table holds *)

Lemma strlen_take_string s : ∀ n, 0 <= n → sql.strlen (sql.take_string n s) <= n.
Proof.
  unfold sql.strlen. induction s as [|a s IH]; intros n Hn; cbn; [lia|].
  destruct (Z.leb_spec n 0); cbn; [lia|]. specialize (IH (n - 1)). lia.
Qed.

Lemma len_take_bytes b : ∀ n, 0 <= n → multipart.len (sql.take_bytes n b) <= n.
Proof.
  unfold multipart.len. induction b as [|x b IH]; intros n Hn; cbn; [lia|].
  destruct (Z.leb_spec n 0); cbn; [lia|]. specialize (IH (n - 1)). lia.
Qed.

(** Whatever the SQL mode, what the server stores fits the columns. *)
Lemma store_fits strict r r' : sql.store strict r = Some r' → sql.fits r' = true.
Proof.
  unfold sql.store. destruct (sql.fits r) eqn:Hf; [by intros [= <-]|].
  destruct strict; [done|]. intros [= <-]. apply fits_iff. cbn.
  pose proof (strlen_take_string (sql.artist r) sql.VARCHAR_255).
  pose proof (strlen_take_string (sql.title r) sql.VARCHAR_255).
  pose proof (len_take_bytes (sql.image r) sql.MEDIUMBLOB_MAX).
  rewrite MEDIUMBLOB_MAX_eq in *. rewrite INT_MAX_eq, INT_MIN_eq.
  unfold sql.VARCHAR_255 in *. lia.
Qed.

Lemma createAlbum_row_ok env c db :
  (∀ k r, sql.Albums db !! k = Some r → row_ok r) →
  ∀ k r, sql.Albums (createAlbum env c db).2 !! k = Some r → row_ok r.
Proof.
  intros Hall k r Hk.
  destruct (createAlbum_lookup env c db k r Hk)
    as [Hold|(form & year & i & _ & (Ha & Ht & _ & _ & Hpos) & _ & Hs)];
    [by eapply Hall|].
  destruct (store_keeps _ _ _ Hs) as (Ka & Kt & Ky). cbn in Ka, Kt, Ky.
  repeat split; auto. by eapply store_fits.
Qed.

(** X4.  An invariant of the table: if every row has a non-empty artist,
    a non-empty title, a positive year and values that fit the columns,
    then so has every row after any sequence of requests; on a table that
    starts empty it holds throughout. *)
Theorem stored_rows_invariant db db' :
  later db db' →
  (∀ k r, sql.Albums db !! k = Some r → row_ok r) →
  ∀ k r, sql.Albums db' !! k = Some r → row_ok r.
Proof.
  induction 1 as [|db env rq resp db' db'' Hs _ IH]; [done|].
  intros Hall. apply IH.
  destruct (serve_db _ _ _ _ _ Hs) as [->|[c ->]]; [done|].
  by apply createAlbum_row_ok.
Qed.

Lemma stored_rows_invariant_witness :
  row_ok (sql.mkRow "Radiohead" "OK Computer" 1997 cover).
Proof.
  refine (stored_rows_invariant sql.empty (createAlbum env_ok ok_computer sql.empty).2
            _ _ 1 _ _).
  - eapply (later_served _ env_ok (gin.Request ok_computer)); [|apply later_now].
    vm_compute. reflexivity.
  - intros k r Hk. unfold sql.empty in Hk. cbn in Hk. by rewrite lookup_empty in Hk.
  - vm_compute. reflexivity.
Defined.

(** ** The ids [createAlbum] hands out *)

Lemma createAlbum_201_inv env c db id db' :
  createAlbum env c db = (gin.JSON 201 (gin.H "AlbumID" (json.Num id)), db') →
  id = sql.AUTO_INCREMENT db
  ∧ ∃ row, db' = sql.mkDB (<[id := row]> (sql.Albums db)) (id + 1).
Proof.
  intros Hc. pose proof (createAlbum_path env c db) as Hp. rewrite Hc in Hp.
  inversion Hp as [| | | | | | |
                   |form year file f i res albumID db0 _ _ _ _ _ Hx Hl].
  subst. unfold sql.LastInsertId in Hl.
  destruct (last_insert_id_fault env); [done|]. injection Hl as ->.
  destruct (Exec_insert_inv _ _ _ _ _ _ _ _ Hx)
    as [(e' & ? & _)|(row & [= ->] & _ & _ & _ & ->)]; [done|].
  split; [done|]. by exists row.
Qed.

Lemma createAlbum_counter env c db :
  sql.AUTO_INCREMENT db <= sql.AUTO_INCREMENT (createAlbum env c db).2.
Proof.
  destruct (createAlbum_db env c db) as [->|(a & t & y & i & res & Hx)]; [lia|].
  destruct (Exec_insert_inv _ _ _ _ _ _ _ _ Hx)
    as [(e' & _ & ->)|(row & _ & _ & _ & _ & ->)]; cbn; lia.
Qed.

Lemma later_counter db db' :
  later db db' → sql.AUTO_INCREMENT db <= sql.AUTO_INCREMENT db'.
Proof.
  induction 1 as [|db env rq resp db' db'' Hs _ IH]; [lia|].
  destruct (serve_db _ _ _ _ _ Hs) as [->|[c ->]]; [done|].
  pose proof (createAlbum_counter env c db). lia.
Qed.

(** X5.  Ids are never handed out twice: of two creations answered 201,
    the later one gets the larger id, whatever was served in between. *)
Theorem album_ids_increase env1 c1 db1 id1 db1' env2 c2 db2 id2 db2' :
  createAlbum env1 c1 db1 = (gin.JSON 201 (gin.H "AlbumID" (json.Num id1)), db1') →
  later db1' db2 →
  createAlbum env2 c2 db2 = (gin.JSON 201 (gin.H "AlbumID" (json.Num id2)), db2') →
  id1 < id2.
Proof.
  intros H1 Hl H2.
  destruct (createAlbum_201_inv _ _ _ _ _ H1) as (-> & row1 & ->).
  destruct (createAlbum_201_inv _ _ _ _ _ H2) as (-> & _).
  apply later_counter in Hl. cbn in Hl. lia.
Qed.

Lemma album_ids_increase_witness : 1 < 2.
Proof.
  refine (album_ids_increase env_ok ok_computer sql.empty 1 _
            env_ok empty_image _ 2 _ _ (later_now _) _).
  - vm_compute. reflexivity.
  - vm_compute. reflexivity.
Defined.

(** X6.  The answers of [createAlbum] and what each says about the table:
    400 leaves the table as it was; 201 carries the id the counter held and
    the table holds one row more, under that id, with the counter moved by
    one; 500 leaves the table as it was, unless the row was stored and only
    reading its id back failed.  No other status is ever sent. *)
Theorem createAlbum_outcomes env c db :
  (gin.Status (createAlbum env c db).1 = 400 ∧ (createAlbum env c db).2 = db)
  ∨ (gin.Status (createAlbum env c db).1 = 500
     ∧ ((createAlbum env c db).2 = db
        ∨ (last_insert_id_fault env = true
           ∧ ∃ row, (createAlbum env c db).2
                    = sql.mkDB (<[sql.AUTO_INCREMENT db := row]> (sql.Albums db))
                        (sql.AUTO_INCREMENT db + 1))))
  ∨ (gin.Status (createAlbum env c db).1 = 201
     ∧ gin.Body (createAlbum env c db).1
       = gin.H "AlbumID" (json.Num (sql.AUTO_INCREMENT db))
     ∧ ∃ row, (createAlbum env c db).2
              = sql.mkDB (<[sql.AUTO_INCREMENT db := row]> (sql.Albums db))
                  (sql.AUTO_INCREMENT db + 1)).
Proof.
  destruct (createAlbum_path env c db)
    as [e Hp|form Hp H|form Hp Ha Ht Hy H|form year e Hp Hv
        |form year file e Hp Hv|form year file f e Hp Hv
        |form year file f i e db' Hp Hv _ _ _ Hx
        |form year file f i res e db' Hp Hv _ _ _ Hx Hl
        |form year file f i res albumID db' Hp Hv _ _ _ Hx Hl];
    cbn; auto.
  - destruct (Exec_insert_inv _ _ _ _ _ _ _ _ Hx)
      as [(e' & _ & ->)|(row & ? & _)]; [auto|done].
  - destruct (Exec_insert_inv _ _ _ _ _ _ _ _ Hx)
      as [(e' & ? & _)|(row & _ & _ & _ & _ & ->)]; [done|].
    right. left. split; [done|]. right. split; [|by exists row].
    unfold sql.LastInsertId in Hl. by destruct (last_insert_id_fault env).
  - destruct (Exec_insert_inv _ _ _ _ _ _ _ _ Hx)
      as [(e' & ? & _)|(row & [= ->] & _ & _ & _ & ->)]; [done|].
    right. right. split; [done|]. split; [|by exists row].
    unfold sql.LastInsertId in Hl.
    destruct (last_insert_id_fault env); [done|]. by injection Hl as ->.
Qed.

(** ** Which error [createAlbum] reports *)

(** X7.  The checks run in the order of the source, and the first that
    fails decides the answer: on a parsed form an empty artist, title or
    year is reported as such whatever the year's value and the image; a
    year that is not a positive integer is reported before the image is
    looked at.  Neither touches the table. *)
Theorem createAlbum_first_error env c db form :
  parsed c = Ok form →
  (http.FormValue form "artist" = "" ∨ http.FormValue form "title" = ""
     ∨ http.FormValue form "year" = "" →
   createAlbum env c db = (fail 400 "Artist, title, and year are required", db))
  ∧ (http.FormValue form "artist" ≠ "" → http.FormValue form "title" ≠ "" →
     http.FormValue form "year" ≠ "" →
     (∃ e, strconv.Atoi (http.FormValue form "year") = Err e)
       ∨ (∃ y, strconv.Atoi (http.FormValue form "year") = Ok y ∧ y <= 0) →
     createAlbum env c db = (fail 400 "Year must be a positive integer", db)).
Proof.
  unfold parsed. intros Hp. split.
  - intros H. unfold createAlbum. fold MiB10. rewrite Hp.
    destruct H as [H|[H|H]]; rewrite H; cbn [String.eqb orb]; [done| |].
    + by rewrite orb_true_r.
    + by rewrite !orb_true_r.
  - intros Ha Ht Hy H. unfold createAlbum. fold MiB10. rewrite Hp.
    apply string_eqb_false in Ha, Ht, Hy. rewrite Ha, Ht, Hy. cbn [orb].
    destruct H as [[e He]|(y & He & Hle)]; rewrite He; [done|].
    by destruct (Z.leb_spec y 0); [|lia].
Qed.

(** A request without a title and without an image: the title is reported. *)
Lemma createAlbum_first_error_witness :
  createAlbum env_ok
    (post_albums [form_field "artist" "Radiohead"; form_field "year" "0"]) sql.empty
  = (fail 400 "Artist, title, and year are required", sql.empty).
Proof.
  refine (proj1 (createAlbum_first_error env_ok
                   (post_albums [form_field "artist" "Radiohead"; form_field "year" "0"])
                   sql.empty _ _) _).
  - vm_compute. reflexivity.
  - right. left. vm_compute. reflexivity.
Defined.

(** X8.  When the INSERT has succeeded and reading the new id back fails,
    the answer is 500 although the row is in the table. *)
Theorem createAlbum_id_lost env c db form year file openedFile imageData :
  parsed c = Ok form → validated form year →
  gin.FormFile env form "image" = Ok file →
  multipart.Open (open_fault env) file = Ok openedFile →
  io.ReadAll env openedFile = Ok imageData →
  exec_fault env = false →
  sql.AUTO_INCREMENT db <= sql.INT_MAX →
  sql.fits (sql.mkRow (http.FormValue form "artist") (http.FormValue form "title")
              year imageData) = true →
  last_insert_id_fault env = true →
  createAlbum env c db =
    (fail 500 "Failed to retrieve album ID",
     sql.mkDB
       (<[sql.AUTO_INCREMENT db :=
            sql.mkRow (http.FormValue form "artist") (http.FormValue form "title")
              year imageData]> (sql.Albums db))
       (sql.AUTO_INCREMENT db + 1)).
Proof.
  intros Hp Hv Hf Ho Hr He Hn Hfit Hl. pass_field_checks Hp Hv.
  rewrite Hf, Ho, Hr, (Exec_insert_fits _ _ _ _ _ _ He Hn Hfit).
  unfold sql.LastInsertId. by rewrite Hl.
Qed.

Lemma createAlbum_id_lost_witness :
  createAlbum env_id_fault ok_computer sql.empty =
    (fail 500 "Failed to retrieve album ID",
     sql.mkDB (<[1 := sql.mkRow "Radiohead" "OK Computer" 1997 cover]> ∅) 2).
Proof.
  refine (createAlbum_id_lost env_id_fault ok_computer sql.empty
            (upload_form "Radiohead" "OK Computer" "1997" "cover.png" cover) 1997
            _ _ cover _ _ _ _ _ _ _ _ _).
  - vm_compute. reflexivity.
  - repeat split; vm_compute; congruence.
  - vm_compute. reflexivity.
  - vm_compute. reflexivity.
  - vm_compute. reflexivity.
  - reflexivity.
  - vm_compute. discriminate.
  - vm_compute. reflexivity.
  - reflexivity.
Defined.

(** X9.  A request that passes every check of the handler is answered 500
    "Failed to insert album", and nothing is stored, when the statement
    cannot run, when the id counter has passed the range of INT, or when in
    strict SQL mode a value does not fit its column. *)
Theorem createAlbum_insert_refused env c db form year file openedFile imageData :
  parsed c = Ok form → validated form year →
  gin.FormFile env form "image" = Ok file →
  multipart.Open (open_fault env) file = Ok openedFile →
  io.ReadAll env openedFile = Ok imageData →
  exec_fault env = true
    ∨ sql.INT_MAX < sql.AUTO_INCREMENT db
    ∨ (sql_strict env = true
       ∧ sql.fits (sql.mkRow (http.FormValue form "artist")
                     (http.FormValue form "title") year imageData) = false) →
  createAlbum env c db = (fail 500 "Failed to insert album", db).
Proof.
  intros Hp Hv Hf Ho Hr H. pass_field_checks Hp Hv. rewrite Hf, Ho, Hr.
  unfold sql.Exec_insert, sql.store.
  destruct H as [->|[Hn|[-> ->]]]; [done| |].
  - destruct (exec_fault env); [done|].
    by destruct (Z.ltb_spec sql.INT_MAX (sql.AUTO_INCREMENT db)); [|lia].
  - destruct (exec_fault env); [done|]. by destruct (_ <? _).
Qed.

Lemma createAlbum_insert_refused_witness :
  createAlbum env_ok long_artist sql.empty
  = (fail 500 "Failed to insert album", sql.empty).
Proof.
  refine (createAlbum_insert_refused env_ok long_artist sql.empty
            (upload_form long_name "OK Computer" "1997" "cover.png" cover) 1997
            _ _ cover _ _ _ _ _ _).
  - vm_compute. reflexivity.
  - repeat split; vm_compute; congruence.
  - vm_compute. reflexivity.
  - vm_compute. reflexivity.
  - vm_compute. reflexivity.
  - right. right. split; vm_compute; reflexivity.
Defined.

(** ** The JSON encoding of an album *)


(** ** The form parser *)



(** ** strconv.Atoi and the route of [getAlbum] *)

Lemma parseUint_loop_bounds s : ∀ n un,
  0 <= n <= strconv.maxUint64 →
  strconv.parseUint_loop s n = Ok un → 0 <= un <= strconv.maxUint64.
Proof.
  induction s as [|c s IH]; intros n un Hn; cbn [strconv.parseUint_loop].
  - by intros [= <-].
  - destruct (9 <? _); [done|]. destruct (_ <=? n); [done|].
    destruct (Z.ltb_spec strconv.maxUint64
                (n * 10 + (strconv.byte_of c - 48) `mod` 256)) as [|Hle]; [done|].
    apply IH. split; [|done].
    pose proof (Z.mod_pos_bound (strconv.byte_of c - 48) 256). lia.
Qed.

(** X12.  What [Atoi] accepts is a Go [int]: the year [createAlbum] passes
    to the INSERT and the id [getAlbum] queries lie between -2^63 and
    2^63 - 1. *)
Theorem Atoi_range s n :
  strconv.Atoi s = Ok n → strconv.MinInt <= n <= strconv.MaxInt.
Proof.
  change strconv.MinInt with (- 2 ^ 63). change strconv.MaxInt with (2 ^ 63 - 1).
  unfold strconv.Atoi, strconv.ParseInt. destruct s as [|c s]; [done|].
  match goal with |- context [strconv.ParseUint ?d] => set (digits := d) end.
  destruct (strconv.ParseUint digits) as [un|] eqn:Hu; [|done].
  assert (0 <= un <= strconv.maxUint64) as Hun.
  { unfold strconv.ParseUint in Hu. destruct digits; [done|].
    by eapply parseUint_loop_bounds; [|exact Hu]. }
  change (2 ^ (strconv.intSize - 1)) with (2 ^ 63).
  destruct (Ascii.eqb c "-"); cbn [negb andb].
  - destruct (Z.ltb_spec (2 ^ 63) un); [done|]. intros [= <-]. lia.
  - destruct (Z.leb_spec (2 ^ 63) un); [done|]. intros [= <-]. lia.
Qed.

Lemma Atoi_range_witness :
  strconv.MinInt <= -9223372036854775808 <= strconv.MaxInt.
Proof. exact (Atoi_range "-9223372036854775808" _ eq_refl). Defined.

(** The digits [ParseUint] accepts hold no slash. *)
Lemma parseUint_loop_no_slash s : ∀ n un,
  strconv.parseUint_loop s n = Ok un → String.index 0 "/" s = None.
Proof.
  induction s as [|c s IH]; intros n un; [done|].
  cbn [strconv.parseUint_loop String.index].
  destruct (9 <? _) eqn:Hd; [done|]. destruct (_ <=? n); [done|].
  destruct (strconv.maxUint64 <? _); [done|]. intros Hl. rewrite (IH _ _ Hl).
  cbn [String.prefix]. destruct (ascii_dec "/" c) as [<-|]; [|done].
  by vm_compute in Hd.
Qed.

Lemma Atoi_no_slash s n :
  strconv.Atoi s = Ok n → s ≠ "" ∧ String.index 0 "/" s = None.
Proof.
  unfold strconv.Atoi, strconv.ParseInt. destruct s as [|c s]; [done|].
  split; [done|]. revert H.
  destruct (strconv.ParseUint _) as [un|] eqn:Hu; [|done]. intros _.
  unfold strconv.ParseUint in Hu.
  destruct (Ascii.eqb c "+" || Ascii.eqb c "-") eqn:Hsign.
  - assert (String.index 0 "/" s = None) as Hs.
    { destruct s; [done|]. by eapply parseUint_loop_no_slash. }
    cbn [String.index String.prefix]. rewrite Hs.
    destruct (ascii_dec "/" c) as [<-|]; [|done]. by vm_compute in Hsign.
  - by eapply parseUint_loop_no_slash.
Qed.

Lemma substring_all s : String.substring 0 (String.length s) s = s.
Proof. induction s as [|c s IH]; [done|]. cbn. by rewrite IH. Qed.

Lemma prefix_append p s : String.prefix p (p ++ s) = true.
Proof.
  induction p as [|a p IH]; [by destruct s|].
  change (String a p ++ s) with (String a (p ++ s)). cbn [String.prefix].
  destruct (ascii_dec a a) as [_|Hn]; [exact IH|by destruct Hn].
Qed.

Lemma substring_append p s :
  String.substring (String.length p) (String.length (p ++ s) - String.length p) (p ++ s)
  = s.
Proof.
  induction p as [|a p IH].
  - change ("" ++ s) with s. cbn [String.length String.substring].
    rewrite Nat.sub_0_r. apply substring_all.
  - change (String a p ++ s) with (String a (p ++ s)).
    cbn [String.length String.substring Nat.sub]. exact IH.
Qed.

Lemma path_param_albums id :
  id ≠ "" → String.index 0 "/" id = None →
  path_param "/albums/" ("/albums/" ++ id) = Some id.
Proof.
  intros Hne Hidx. unfold path_param.
  rewrite prefix_append, substring_append. cbv zeta.
  destruct id as [|a s]; [done|]. by rewrite Hidx.
Qed.

(** X13.  Every path ["/albums/" ++ s] whose last segment [Atoi] accepts is
    routed to [getAlbum], with that segment as the parameter [id]: the
    answer to GET /albums/<id> is the handler's. *)
Theorem numeric_ids_are_routed env query body s id db :
  strconv.Atoi s = Ok id →
  serve env (http.mkRequest "GET" ("/albums/" ++ s) query body) db
  = Some (getAlbum env
            (gin.mkContext (http.mkRequest "GET" ("/albums/" ++ s) query body)
               [("id", s)]) db).
Proof.
  intros Hs. destruct (Atoi_no_slash _ _ Hs) as [Hne Hidx].
  unfold serve. cbn [http.Method http.Path].
  change (String.eqb "GET" "GET") with true.
  change (String.eqb "GET" "POST") with false.
  change (String.eqb ("/albums/" ++ s) "/health") with false.
  cbn [andb]. by rewrite path_param_albums.
Qed.

Lemma numeric_ids_are_routed_witness :
  serve env_ok (http.mkRequest "GET" ("/albums/" ++ "-5") ∅ None) sql.empty
  = Some (fail 404 "Album not found", sql.empty).
Proof.
  exact (numeric_ids_are_routed env_ok ∅ None "-5" (-5) sql.empty eq_refl).
Defined.
